(** * mechiru/skadnetwork: canonicalisation, signing and verification

    A shallow embedding of [skadnetwork.go].  The source file holds two
    revisions of the package, one after the other:

    - lines 1-338: version-specific parameter types behind the [Params]
      interface, one [toItems] per postback version, a two-block key loader
      (module [Rev1] below);
    - lines 339-603: a single [Params] struct carrying a [Version] tag, one
      [Postback.toItems], a one-block key loader (module [Rev2] below).

    The [Postback] struct, [FidelityType], [separator], [hash] and [verify]
    are the same in both revisions and are embedded once.

    Go values are modelled as follows: [int], [int64] as [Z]; [string] as
    [string] (a byte sequence, as in Go); [[]byte] as [list byte]; a nilable
    pointer [*T] as [option T]; a Go result pair [(v, err)] as a pair whose
    second component is [option error]; a run-time panic as the [Panic]
    outcome. *)

From Stdlib Require Import ZArith String Ascii List Lia Bool.
From Stdlib.Strings Require Import Byte.
From stdpp Require Import base tactics option list.
Import ListNotations.
Local Open Scope string_scope.
Local Open Scope list_scope.
Local Open Scope Z_scope.

(** String concatenation, kept apart from list concatenation. *)
Infix "+:+" := String.append (at level 60, right associativity).

(** ** Outcomes: a value or a run-time panic *)

Inductive outcome (A : Type) : Type :=
| Ret (a : A)
| Panic.
Arguments Ret {A} a.
Arguments Panic {A}.

Definition obind {A B} (m : outcome A) (k : A -> outcome B) : outcome B :=
  match m with
  | Ret a => k a
  | Panic => Panic
  end.

Definition omap {A B} (f : A -> B) (m : outcome A) : outcome B :=
  obind m (fun a => Ret (f a)).

Notation "'do!' x <- m ; k" := (obind m (fun x => k))
  (at level 10, x name, m at level 100, k at level 200).

(** [*p] on a nilable pointer: a nil dereference panics. *)
Definition deref {A} (p : option A) : outcome A :=
  match p with
  | Some a => Ret a
  | None => Panic
  end.

(** ** The Go library functions the package formats with *)

Module Go.

Definition int64_min : Z := - 2 ^ 63.
Definition int64_max : Z := 2 ^ 63 - 1.

Definition in_int64 (z : Z) : Prop := int64_min <= z <= int64_max.

(** Two's complement wrap-around of 64-bit signed arithmetic. *)
Definition wrap64 (z : Z) : Z := (z + 2 ^ 63) mod 2 ^ 64 - 2 ^ 63.

Definition digit (d : Z) : ascii := ascii_of_N (48 + Z.to_N d).

(** The digit loop of [strconv.formatBits] for base 10: least significant
    digit first, written right to left.  Twenty rounds cover every 64-bit
    magnitude. *)
Fixpoint formatBits (fuel : nat) (u : Z) (acc : string) : string :=
  match fuel with
  | O => acc
  | S fuel' =>
      if u <? 10 then String (digit u) acc
      else formatBits fuel' (u / 10) (String (digit (u mod 10)) acc)
  end.

(** [strconv.FormatInt(i, 10)]. *)
Definition FormatInt (i : Z) : string :=
  if i <? 0 then String "-" (formatBits 20 (- i) "")
  else formatBits 20 i "".

(** [strconv.Itoa]. *)
Definition Itoa (i : Z) : string := FormatInt i.

(** [strconv.FormatBool]. *)
Definition FormatBool (b : bool) : string :=
  if b then "true" else "false".

(** [strings.Join]. *)
Definition Join (elems : list string) (sep : string) : string :=
  String.concat sep elems.

(** [time.Time], reduced to what [UnixMilli] reads: seconds since the
    Unix epoch and the nanosecond within the second. *)
Record Time := mkTime { unixSec : Z; nsec : Z }.

(** [Time.UnixMilli]: [t.unixSec()*1e3 + int64(t.nsec())/1e6] in int64. *)
Definition UnixMilli (t : Time) : Z :=
  wrap64 (wrap64 (unixSec t * 1000) + Z.quot (nsec t) 1000000).

(** Days from 1970-01-01 to the given proleptic Gregorian date. *)
Definition daysSinceEpoch (year month day : Z) : Z :=
  let y := if month <=? 2 then year - 1 else year in
  let era := y / 400 in
  let yoe := y - era * 400 in
  let mp := if month <=? 2 then month + 9 else month - 3 in
  let doy := (153 * mp + 2) / 5 + day - 1 in
  let doe := yoe * 365 + yoe / 4 - yoe / 100 + doy in
  era * 146097 + doe - 719468.

(** [time.Date(year, month, day, hour, min, sec, nsec, time.UTC)], which
    is also what [time.Parse(time.RFC3339, ...)] yields for a [Z] suffix. *)
Definition Date (year month day hour min sec ns : Z) : Time :=
  {| unixSec := daysSinceEpoch year month day * 86400
                + hour * 3600 + min * 60 + sec;
     nsec := ns |}.

Definition hextable : string := "0123456789abcdef".

Definition hexdigit (n : N) : ascii :=
  match String.get (N.to_nat n) hextable with
  | Some c => c
  | None => "0"%char
  end.

(** [hex.Encode]: two lower-case digits per byte, high nibble first. *)
Fixpoint hexEncode (src : list byte) : string :=
  match src with
  | [] => ""
  | v :: rest =>
      String (hexdigit (N.shiftr (Byte.to_N v) 4))
        (String (hexdigit (N.land (Byte.to_N v) 15)) (hexEncode rest))
  end.

(** [uuid.UUID] is [[16]byte]. *)
Record UUID := mkUUID {
  uuid_bytes : list byte;
  uuid_len : List.length uuid_bytes = 16%nat
}.

Definition slice {A} (l : list A) (lo hi : nat) : list A :=
  firstn (hi - lo) (skipn lo l).

(** [UUID.String]: xxxxxxxx-xxxx-xxxx-xxxx-xxxxxxxxxxxx. *)
Definition UUID_String (u : UUID) : string :=
  let b := uuid_bytes u in
  hexEncode (slice b 0 4) +:+ "-" +:+
  hexEncode (slice b 4 6) +:+ "-" +:+
  hexEncode (slice b 6 8) +:+ "-" +:+
  hexEncode (slice b 8 10) +:+ "-" +:+
  hexEncode (slice b 10 16).

End Go.

(** ** Errors

    Every error the package makes is [errors.New] or [fmt.Errorf] with a
    fixed message prefix; [%w] wraps the cause.  One constructor per site. *)

Inductive error : Type :=
| LibError (msg : string)
| ErrPublicKeyBlockDecode (cause : error)
| ErrParsePublicKey (cause : error)
| ErrUnsupportedVersion (version : string)
| ErrSignMessage (cause : error)
| ErrSignatureDecode (sig : string)
| ErrNoDataBlock
| ErrOnly2Blocks
| ErrUnexpectedBlockType (type : string)
| ErrBlockParse (cause : error)
| ErrKeysNotIncluded
| ErrPemDataDecode (cause : error).

(** [err.Error()]: the message text, as the source spells it. *)
Fixpoint Error (e : error) : string :=
  match e with
  | LibError msg => msg
  | ErrPublicKeyBlockDecode c =>
      "skadnetwork: public key block decode error: " +:+ Error c
  | ErrParsePublicKey c => "skadnetwork: parse public key error: " +:+ Error c
  | ErrUnsupportedVersion v => "skadnetwork: unsupported version error: " +:+ v
  | ErrSignMessage c => "skadnetwork: sign message error: " +:+ Error c
  | ErrSignatureDecode sig => "skadnetwork: signature decode error: " +:+ sig
  | ErrNoDataBlock => "skadnetwork: can not found data block"
  | ErrOnly2Blocks => "skadnetwork: only 2 blocks are allowed for pem data"
  | ErrUnexpectedBlockType t =>
      "skadnetwork: unexpected block type detected: " +:+ t
  | ErrBlockParse c => "skadnetwork: block parse error of pem data: " +:+ Error c
  | ErrKeysNotIncluded =>
      "skadnetowrk: ec private key and public key not included"
  | ErrPemDataDecode c => "skadnetwork: pem data decode error: " +:+ Error c
  end.

(** The error taxonomy of the specification, read off the site that makes
    the error.  No site of the package reports a missing field. *)
Inductive ErrorKind : Type :=
| FormatError
| DecodeError
| UnsupportedVersionError
| MissingRequiredFieldError
| SigningError.

Definition kind_of (e : error) : option ErrorKind :=
  match e with
  | LibError _ => None
  | ErrPublicKeyBlockDecode _ | ErrParsePublicKey _ => Some FormatError
  | ErrUnsupportedVersion _ => Some UnsupportedVersionError
  | ErrSignMessage _ => Some SigningError
  | ErrSignatureDecode _ => Some DecodeError
  | ErrNoDataBlock | ErrOnly2Blocks | ErrUnexpectedBlockType _
  | ErrBlockParse _ | ErrKeysNotIncluded | ErrPemDataDecode _ =>
      Some FormatError
  end.

(** ** The cryptographic and encoding libraries, as an interface *)

(** [ecdsa.PrivateKey]: the embedded public key and the secret scalar. *)
Record PrivateKey (pubkey : Type) : Type := mkPrivateKey {
  PublicKey : pubkey;
  D : Z
}.
Arguments mkPrivateKey {pubkey} _ _.
Arguments PublicKey {pubkey} _.
Arguments D {pubkey} _.

(** What [x509.ParsePKIXPublicKey] hands back as [any]: an ECDSA key, or a
    key of another algorithm (RSA, Ed25519, ...). *)
Inductive anyPublicKey (pubkey : Type) : Type :=
| ECDSAPublicKey (k : pubkey)
| OtherPublicKey.
Arguments ECDSAPublicKey {pubkey} k.
Arguments OtherPublicKey {pubkey}.

(** [pem.Block]. *)
Record Block : Type := mkBlock { Type_ : string; Bytes : list byte }.

(** The library calls of the package and its package-level key.  A library
    result [(v, err)] is a sum: [inl err] or [inr v]. *)
Class Platform : Type := {
  pubkey : Type;
  entropy : Type;
  base64_DecodeString : string -> error + list byte;
  base64_EncodeToString : list byte -> string;
  sha256_Sum256 : list byte -> list byte;
  ecdsa_SignASN1 :
    entropy -> PrivateKey pubkey -> list byte -> error + list byte;
  ecdsa_VerifyASN1 : pubkey -> list byte -> list byte -> bool;
  x509_ParseECPrivateKey : list byte -> error + PrivateKey pubkey;
  x509_ParsePKIXPublicKey : list byte -> error + anyPublicKey pubkey;
  pem_Decode : list byte -> option Block * list byte;
  (** the public key a private scalar determines on the curve *)
  derive : Z -> pubkey;
  (** the package variable [pubV3] as initialisation left it; nil when
      parsing the embedded constant failed *)
  pubV3 : option pubkey
}.

(** What the round trip needs of the libraries. *)
Class PlatformLaws (P : Platform) : Prop := {
  base64_round_trip :
    forall der, base64_DecodeString (base64_EncodeToString der) = inr der;
  parsed_key_is_pair :
    forall der k, x509_ParseECPrivateKey der = inr k ->
                  PublicKey k = derive (D k);
  ecdsa_complete :
    forall rnd d h der,
      ecdsa_SignASN1 rnd (mkPrivateKey (derive d) d) h = inr der ->
      ecdsa_VerifyASN1 (derive d) h der = true
}.

(** ** What both revisions share *)

(** [const separator = string('\u2063')]: the UTF-8 bytes E2 81 A3. *)
Definition separator : string :=
  String (ascii_of_nat 226)
    (String (ascii_of_nat 129) (String (ascii_of_nat 163) "")).

(** Apple's NIST P-256 public key for postbacks of version 2.1 and later,
    as the source embeds it. *)
Definition applePublicKeyP256 : string :=
  "MFkwEwYHKoZIzj0CAQYIKoZIzj0DAQcDQgAEWdp8GPcGqmhgzEFj9Z2nSpQVddayaPe4FMzqM9wib1+aHaaIzoHoLN9zW4K8y4SPykE3YVK3sVqW6Af0lfx3gg==".

Definition FidelityType : Type := Z.
Definition SKRenderedAds : FidelityType := 1.
Definition ViewThroughAds : FidelityType := 0.

Definition FidelityType_String (f : FidelityType) : string := Go.FormatInt f.

Record Postback : Type := mkPostback {
  Version : string;
  AdNetworkID : string;
  TransactionID : string;
  CampaignID : Z;
  AppID : Z;
  AttributionSignature : string;
  Redownload : option bool;
  SourceAppID : option Z;
  PFidelityType : option FidelityType;
  ConversionValue : option Z;
  DidWin : option bool
}.

Definition set_SourceAppID (v : option Z) (p : Postback) : Postback :=
  mkPostback (Version p) (AdNetworkID p) (TransactionID p) (CampaignID p)
    (AppID p) (AttributionSignature p) (Redownload p) v (PFidelityType p)
    (ConversionValue p) (DidWin p).

Definition set_ConversionValue (v : option Z) (p : Postback) : Postback :=
  mkPostback (Version p) (AdNetworkID p) (TransactionID p) (CampaignID p)
    (AppID p) (AttributionSignature p) (Redownload p) (SourceAppID p)
    (PFidelityType p) v (DidWin p).

(** [type Signer struct { key *ecdsa.PrivateKey }] *)
Record Signer `{Platform} : Type := mkSigner {
  key : option (PrivateKey pubkey)
}.

Section Shared.
Context `{P : Platform}.

Definition hash (msg : string) : list byte :=
  sha256_Sum256 (list_byte_of_string msg).

(** [func verify(key *ecdsa.PublicKey, items []string, sig string)].
    [ecdsa.VerifyASN1] dereferences the key, so a nil key panics there. *)
Definition verify (key : option pubkey) (items : list string) (sig : string)
  : outcome (bool * option error) :=
  match base64_DecodeString sig with
  | inl _ => Ret (false, Some (ErrSignatureDecode sig))
  | inr der =>
      let msg := Go.Join items separator in
      let hash := hash msg in
      do! k <- deref key;
      Ret (ecdsa_VerifyASN1 k hash der, None)
  end.

(** [func (s *Signer) sign(msg string)], with the state of [rand.Reader]
    passed in.  [ecdsa.SignASN1] dereferences the key. *)
Definition Signer_sign (s : Signer) (rnd : entropy) (msg : string)
  : outcome (string * option error) :=
  let hash := hash msg in
  do! k <- deref (key s);
  match ecdsa_SignASN1 rnd k hash with
  | inl err => Ret ("", Some (ErrSignMessage err))
  | inr der => Ret (base64_EncodeToString der, None)
  end.

End Shared.

(** ** First revision (lines 1-338) *)

Module Rev1.

Definition Postback_toItems2_1 (p : Postback) : outcome (list string) :=
  do! redownload <- deref (Redownload p);
  let ret :=
    [ "2.1";
      AdNetworkID p;
      Go.Itoa (CampaignID p);
      Go.FormatInt (AppID p);
      TransactionID p;
      Go.FormatBool redownload ] in
  let ret :=
    match SourceAppID p with
    | Some src => ret ++ [Go.FormatInt src]
    | None => ret
    end in
  Ret ret.

Definition Postback_toItems2_2 (p : Postback) : outcome (list string) :=
  do! redownload <- deref (Redownload p);
  let ret :=
    [ "2.2";
      AdNetworkID p;
      Go.Itoa (CampaignID p);
      Go.FormatInt (AppID p);
      TransactionID p;
      Go.FormatBool redownload ] in
  let ret :=
    match SourceAppID p with
    | Some src => ret ++ [Go.FormatInt src]
    | None => ret
    end in
  do! fidelity <- deref (PFidelityType p);
  Ret (ret ++ [FidelityType_String fidelity]).

Definition Postback_toItems3_0 (p : Postback) : outcome (list string) :=
  do! redownload <- deref (Redownload p);
  let ret :=
    [ "3.0";
      AdNetworkID p;
      Go.Itoa (CampaignID p);
      Go.FormatInt (AppID p);
      TransactionID p;
      Go.FormatBool redownload ] in
  let ret :=
    match SourceAppID p with
    | Some src => ret ++ [Go.FormatInt src]
    | None => ret
    end in
  do! fidelity <- deref (PFidelityType p);
  do! didWin <- deref (DidWin p);
  Ret (ret ++ [FidelityType_String fidelity; Go.FormatBool didWin]).

Record params2_0 : Type := mkParams2_0 {
  AdNetworkID : string;
  CampaignID : Z;
  ItunesItemID : Z;
  Nonce : Go.UUID;
  SourceAppStoreID : Z;
  Timestamp : Go.Time
}.

(** [type Params2_1 params2_0] *)
Record Params2_1 : Type := mkParams2_1 { as_params2_0 : params2_0 }.

Record Params2_2 : Type := mkParams2_2 {
  embedded : Params2_1;
  FidelityType : FidelityType
}.

(** [type Params3_0 Params2_2] *)
Record Params3_0 : Type := mkParams3_0 { as_Params2_2 : Params2_2 }.

(** [type Params interface { toItems() []string }] *)
Class Params (T : Type) : Type := toItems : T -> list string.

#[export] Instance params2_0_toItems : Params params2_0 := fun p =>
  [ "2.0";
    AdNetworkID p;
    Go.Itoa (CampaignID p);
    Go.FormatInt (ItunesItemID p);
    Go.UUID_String (Nonce p);
    Go.FormatInt (SourceAppStoreID p);
    Go.FormatInt (Go.UnixMilli (Timestamp p)) ].

#[export] Instance Params2_1_toItems : Params Params2_1 := fun p =>
  let ret := toItems (as_params2_0 p) in
  <[ 0%nat := "2.1" ]> ret.

#[export] Instance Params2_2_toItems : Params Params2_2 := fun p =>
  let q := as_params2_0 (embedded p) in
  [ "2.2";
    AdNetworkID q;
    Go.Itoa (CampaignID q);
    Go.FormatInt (ItunesItemID q);
    Go.UUID_String (Nonce q);
    Go.FormatInt (SourceAppStoreID q);
    FidelityType_String (FidelityType p);
    Go.FormatInt (Go.UnixMilli (Timestamp q)) ].

#[export] Instance Params3_0_toItems : Params Params3_0 := fun p =>
  let ret := toItems (as_Params2_2 p) in
  <[ 0%nat := "3.0" ]> ret.

Section WithPlatform.
Context `{P : Platform}.

(** The [switch p.Version] of [Postback.verify]: the items of the
    matching rule, or nothing in the [default] case. *)
Definition Postback_items (p : Postback)
  : option (outcome (list string)) :=
  if String.eqb (Version p) "2.1" then Some (Postback_toItems2_1 p)
  else if String.eqb (Version p) "2.2" then Some (Postback_toItems2_2 p)
  else if String.eqb (Version p) "3.0" then Some (Postback_toItems3_0 p)
  else None.

Definition Postback_verify (p : Postback)
  : outcome (bool * option error) :=
  match Postback_items p with
  | Some r =>
      do! items <- r;
      verify pubV3 items (AttributionSignature p)
  | None => Ret (false, Some (ErrUnsupportedVersion (Version p)))
  end.

(** [func Verify(p Postback) (bool, error)] *)
Definition Verify (p : Postback) : outcome (bool * option error) :=
  Postback_verify p.

(** The type assertion of [pub] to an ECDSA public key is the
    single-value form: it panics on a key of another algorithm. *)
Definition parseECDSAPublicKey (bytes : list byte)
  : outcome (option pubkey * option error) :=
  match x509_ParsePKIXPublicKey bytes with
  | inl err => Ret (None, Some (ErrParsePublicKey err))
  | inr (ECDSAPublicKey k) => Ret (Some k, None)
  | inr OtherPublicKey => Panic
  end.

Definition parseECDSAPublicKeyBlock (s : string)
  : outcome (option pubkey * option error) :=
  match base64_DecodeString s with
  | inl err => Ret (None, Some (ErrPublicKeyBlockDecode err))
  | inr der => parseECDSAPublicKey der
  end.

(** The initialiser of the package variable [pubV3]; the error is
    dropped, so the variable is nil when the constant does not parse. *)
Definition pubV3_init : outcome (option pubkey) :=
  omap fst (parseECDSAPublicKeyBlock applePublicKeyP256).

(** The first loop of [decodePEM]: [n] calls of [pem.Decode], each on
    what the one before left; [None] as soon as one finds no block. *)
Fixpoint decodeBlocks (n : nat) (rest : list byte)
  : option (list Block * list byte) :=
  match n with
  | O => Some ([], rest)
  | S n' =>
      match pem_Decode rest with
      | (None, _) => None
      | (Some b, rest') =>
          match decodeBlocks n' rest' with
          | None => None
          | Some (bs, rest'') => Some (b :: bs, rest'')
          end
      end
  end.

(** The variables [key] and [pub] of [decodePEM]. *)
Definition keys : Type := (option (PrivateKey pubkey) * option pubkey)%type.

(** One round of the second loop: [inl] is the error returned from
    inside the loop. *)
Definition parseBlock (st : keys) (block : Block)
  : outcome (error + keys) :=
  if String.eqb (Type_ block) "EC PRIVATE KEY" then
    match x509_ParseECPrivateKey (Bytes block) with
    | inl err => Ret (inl (ErrBlockParse err))
    | inr k => Ret (inr (Some k, snd st))
    end
  else if String.eqb (Type_ block) "PUBLIC KEY" then
    do! r <- parseECDSAPublicKey (Bytes block);
    match r with
    | (_, Some err) => Ret (inl (ErrBlockParse err))
    | (pub, None) => Ret (inr (fst st, pub))
    end
  else Ret (inl (ErrUnexpectedBlockType (Type_ block))).

Fixpoint parseBlocks (blocks : list Block) (st : keys)
  : outcome (error + keys) :=
  match blocks with
  | [] => Ret (inr st)
  | block :: rest =>
      do! r <- parseBlock st block;
      match r with
      | inl err => Ret (inl err)
      | inr st' => parseBlocks rest st'
      end
  end.

Definition decodePEM (data : string)
  : outcome (option (PrivateKey pubkey) * option error) :=
  match decodeBlocks 2 (list_byte_of_string data) with
  | None => Ret (None, Some ErrNoDataBlock)
  | Some (blocks, rest) =>
      if negb (Nat.eqb (List.length rest) 0) then
        Ret (None, Some ErrOnly2Blocks)
      else
        do! r <- parseBlocks blocks (None, None);
        match r with
        | inl err => Ret (None, Some err)
        | inr (Some key, Some pub) =>
            Ret (Some (mkPrivateKey pub (D key)), None)
        | inr _ => Ret (None, Some ErrKeysNotIncluded)
        end
  end.

Definition NewSigner (pem : string)
  : outcome (option Signer * option error) :=
  do! r <- decodePEM pem;
  match r with
  | (_, Some err) => Ret (None, Some (ErrPemDataDecode err))
  | (key, None) => Ret (Some (mkSigner _ key), None)
  end.

Definition Signer_Sign {T} `{Params T} (s : Signer) (rnd : entropy) (p : T)
  : outcome (string * option error) :=
  let msg := Go.Join (toItems p) separator in
  Signer_sign s rnd msg.

(** [&s.key.PublicKey] dereferences [s.key]. *)
Definition Signer_Verify {T} `{Params T} (s : Signer) (p : T)
  (sig : string) : outcome (bool * option error) :=
  do! k <- deref (key s);
  verify (Some (PublicKey k)) (toItems p) sig.

End WithPlatform.

End Rev1.

(** ** Second revision (lines 339-603) *)

Module Rev2.

(** The postback half comes first here so that the fields of [Postback]
    are not yet shadowed by the like-named fields of [Params]. *)

Definition Postback_toItems (p : Postback) : outcome (list string) :=
  do! redownload <- deref (Redownload p);
  let ret :=
    [ Version p;
      AdNetworkID p;
      Go.Itoa (CampaignID p);
      Go.FormatInt (AppID p);
      TransactionID p;
      Go.FormatBool redownload ] in
  let ret :=
    match SourceAppID p with
    | Some src => ret ++ [Go.FormatInt src]
    | None => ret
    end in
  if String.eqb (Version p) "2.2" then
    do! fidelity <- deref (PFidelityType p);
    Ret (ret ++ [FidelityType_String fidelity])
  else if String.eqb (Version p) "3.0" then
    do! fidelity <- deref (PFidelityType p);
    do! didWin <- deref (DidWin p);
    Ret (ret ++ [FidelityType_String fidelity; Go.FormatBool didWin])
  else Ret ret.

Section PostbackVerify.
Context `{P : Platform}.

Definition Postback_verify (p : Postback)
  : outcome (bool * option error) :=
  if String.eqb (Version p) "2.1" || String.eqb (Version p) "2.2"
     || String.eqb (Version p) "3.0"
  then
    do! items <- Postback_toItems p;
    verify pubV3 items (AttributionSignature p)
  else Ret (false, Some (ErrUnsupportedVersion (Version p))).

(** [func Verify(p Postback) (bool, error)] *)
Definition Verify (p : Postback) : outcome (bool * option error) :=
  Postback_verify p.

End PostbackVerify.

Record Params : Type := mkParams {
  Version : string;
  AdNetworkID : string;
  CampaignID : Z;
  ItunesItemID : Z;
  Nonce : Go.UUID;
  SourceAppStoreID : Z;
  FidelityType : FidelityType;
  Timestamp : Go.Time
}.

Definition Params_toItems (p : Params) : list string :=
  let items :=
    [ Version p;
      AdNetworkID p;
      Go.Itoa (CampaignID p);
      Go.FormatInt (ItunesItemID p);
      Go.UUID_String (Nonce p);
      Go.FormatInt (SourceAppStoreID p) ] in
  let items :=
    if String.eqb (Version p) "2.2" || String.eqb (Version p) "3.0"
    then items ++ [FidelityType_String (FidelityType p)]
    else items in
  items ++ [Go.FormatInt (Go.UnixMilli (Timestamp p))].

Section WithPlatform.
Context `{P : Platform}.

Definition Signer_Sign (s : Signer) (rnd : entropy) (p : Params)
  : outcome (string * option error) :=
  let msg := Go.Join (Params_toItems p) separator in
  Signer_sign s rnd msg.

(** [&s.key.PublicKey] dereferences [s.key]. *)
Definition Signer_Verify (s : Signer) (p : Params) (sig : string)
  : outcome (bool * option error) :=
  do! k <- deref (key s);
  verify (Some (PublicKey k)) (Params_toItems p) sig.

(** The type assertion of [pub] to an ECDSA public key is the
    single-value form: it panics on a key of another algorithm. *)
Definition parseECDSAPublicKey (s : string)
  : outcome (option pubkey * option error) :=
  match base64_DecodeString s with
  | inl err => Ret (None, Some (ErrPublicKeyBlockDecode err))
  | inr der =>
      match x509_ParsePKIXPublicKey der with
      | inl err => Ret (None, Some (ErrParsePublicKey err))
      | inr (ECDSAPublicKey k) => Ret (Some k, None)
      | inr OtherPublicKey => Panic
      end
  end.

(** The initialiser of the package variable [pubV3]; the error is
    dropped, so the variable is nil when the constant does not parse. *)
Definition pubV3_init : outcome (option pubkey) :=
  omap fst (parseECDSAPublicKey applePublicKeyP256).

Definition decodePEM (data : string)
  : option (PrivateKey pubkey) * option error :=
  match pem_Decode (list_byte_of_string data) with
  | (None, _) => (None, Some ErrNoDataBlock)
  | (Some block, rest) =>
      if negb (Nat.eqb (List.length rest) 0) then
        (None, Some ErrOnly2Blocks)
      else if negb (String.eqb (Type_ block) "EC PRIVATE KEY") then
        (None, Some (ErrUnexpectedBlockType (Type_ block)))
      else
        match x509_ParseECPrivateKey (Bytes block) with
        | inl err => (None, Some (ErrBlockParse err))
        | inr key => (Some key, None)
        end
  end.

Definition NewSigner (pem : string) : option Signer * option error :=
  match decodePEM pem with
  | (_, Some err) => (None, Some (ErrPemDataDecode err))
  | (key, None) => (Some (mkSigner _ key), None)
  end.

End WithPlatform.

End Rev2.

(** ** Reading the renderings back

    What "a base-10 decimal string" and "the lower-case hyphenated UUID
    form" mean, as checks on the rendered text. *)

Module Reading.

Definition is_digit (c : ascii) : bool :=
  let n := N_of_ascii c in ((48 <=? n) && (n <=? 57))%N.

Fixpoint all_digits (s : string) : bool :=
  match s with
  | EmptyString => true
  | String c rest => is_digit c && all_digits rest
  end.

(** Left-to-right positional value of a digit string. *)
Fixpoint digits_value (s : string) (acc : Z) : Z :=
  match s with
  | EmptyString => acc
  | String c rest => digits_value rest (10 * acc + (Z.of_N (N_of_ascii c) - 48))
  end.

(** A non-empty run of digits with no leading zero, or the single "0". *)
Definition canonical_nat (s : string) : bool :=
  match s with
  | EmptyString => false
  | String c rest =>
      all_digits s && (negb (Ascii.eqb c "0") || String.eqb rest "")
  end.

(** The integer a canonical base-10 text denotes: an optional minus sign
    and a canonical magnitude, no sign on zero, no grouping.  Any other
    text denotes nothing. *)
Definition decimal_value (s : string) : option Z :=
  match s with
  | String "-" ds =>
      if canonical_nat ds && negb (String.eqb ds "0")
      then Some (- digits_value ds 0) else None
  | _ => if canonical_nat s then Some (digits_value s 0) else None
  end.

Definition is_lower_hex (c : ascii) : bool :=
  let n := N_of_ascii c in
  (((48 <=? n) && (n <=? 57)) || ((97 <=? n) && (n <=? 102)))%N.

(** Position by position: hyphens at 8, 13, 18 and 23, lower-case hex
    digits elsewhere, 36 characters in all. *)
Fixpoint uuid_shape (pos : nat) (s : string) : bool :=
  match s with
  | EmptyString => Nat.eqb pos 36
  | String c rest =>
      (if Nat.eqb pos 8 || Nat.eqb pos 13 || Nat.eqb pos 18 || Nat.eqb pos 23
       then Ascii.eqb c "-" else is_lower_hex c)
      && uuid_shape (S pos) rest
  end.

Definition canonical_uuid (s : string) : bool := uuid_shape 0 s.

Definition hex_value (c : ascii) : N :=
  let n := N_of_ascii c in
  if (n <=? 57)%N then (n - 48)%N else (n - 87)%N.

Definition byte_of_hex (hi lo : ascii) : byte :=
  match Byte.of_N (16 * hex_value hi + hex_value lo) with
  | Some b => b
  | None => x00
  end.

Fixpoint hex_bytes (s : string) : list byte :=
  match s with
  | String hi (String lo rest) => byte_of_hex hi lo :: hex_bytes rest
  | _ => []
  end.

Fixpoint without_hyphens (s : string) : string :=
  match s with
  | EmptyString => EmptyString
  | String c rest =>
      if Ascii.eqb c "-" then without_hyphens rest
      else String c (without_hyphens rest)
  end.

(** The sixteen bytes a hyphenated UUID text spells. *)
Definition uuid_value (s : string) : list byte :=
  hex_bytes (without_hyphens s).

End Reading.

(** ** A small executable platform

    An instance of [Platform] on which the package runs to concrete values.
    It is not P-256: a public key is a number, a signature names the public
    key of the signing scalar in front of the digest, and a key file is a
    sequence of blocks, each a tag byte (K, P or C), a body and a semicolon.
    It satisfies [PlatformLaws]. *)

Module Toy.

Definition toy_derive (d : Z) : Z := d + 1000.

Definition DecodeString (s : string) : error + list byte :=
  match s with
  | String "b" (String "6" (String "4" (String ":" body))) =>
      inr (list_byte_of_string body)
  | _ => inl (LibError "illegal base64 data at input byte 0")
  end.

Definition EncodeToString (der : list byte) : string :=
  "b64:" +:+ string_of_list_byte der.

Definition tagged (pub : Z) (h : list byte) : string :=
  Go.FormatInt pub +:+ ":" +:+ string_of_list_byte h.

Definition SignASN1 (rnd : Z) (k : PrivateKey Z) (h : list byte)
  : error + list byte :=
  if rnd =? 0 then inl (LibError "EOF")
  else inr (list_byte_of_string (tagged (toy_derive (D k)) h)).

Definition VerifyASN1 (pub : Z) (h der : list byte) : bool :=
  String.eqb (string_of_list_byte der) (tagged pub h).

Definition ParseECPrivateKey (der : list byte) : error + PrivateKey Z :=
  match Reading.decimal_value (string_of_list_byte der) with
  | Some d => inr (mkPrivateKey (toy_derive d) d)
  | None => inl (LibError "x509: failed to parse EC private key")
  end.

Definition ParsePKIXPublicKey (der : list byte) : error + anyPublicKey Z :=
  if String.eqb (string_of_list_byte der) "rsa" then inr OtherPublicKey
  else
    match Reading.decimal_value (string_of_list_byte der) with
    | Some k => inr (ECDSAPublicKey k)
    | None => inl (LibError "x509: failed to parse public key")
    end.

(** Splits at the first semicolon. *)
Fixpoint until_semicolon (s : string) : option (string * string) :=
  match s with
  | EmptyString => None
  | String c rest =>
      if Ascii.eqb c ";" then Some (EmptyString, rest)
      else
        match until_semicolon rest with
        | Some (body, rest') => Some (String c body, rest')
        | None => None
        end
  end.

Definition label (tag : ascii) : option string :=
  if Ascii.eqb tag "K" then Some "EC PRIVATE KEY"
  else if Ascii.eqb tag "P" then Some "PUBLIC KEY"
  else if Ascii.eqb tag "C" then Some "CERTIFICATE"
  else None.

Definition Decode (data : list byte) : option Block * list byte :=
  match string_of_list_byte data with
  | String tag rest =>
      match label tag, until_semicolon rest with
      | Some ty, Some (body, rest') =>
          (Some (mkBlock ty (list_byte_of_string body)),
           list_byte_of_string rest')
      | _, _ => (None, data)
      end
  | EmptyString => (None, data)
  end.

Definition platform : Platform := {|
  pubkey := Z;
  entropy := Z;
  base64_DecodeString := DecodeString;
  base64_EncodeToString := EncodeToString;
  sha256_Sum256 := fun msg => msg;
  ecdsa_SignASN1 := SignASN1;
  ecdsa_VerifyASN1 := VerifyASN1;
  x509_ParseECPrivateKey := ParseECPrivateKey;
  x509_ParsePKIXPublicKey := ParsePKIXPublicKey;
  pem_Decode := Decode;
  derive := toy_derive;
  pubV3 := Some 5000
|}.

End Toy.

(** ** Vocabulary of the statements *)

(** The versions the package signs and verifies. *)
Definition supported (v : string) : Prop :=
  v = "2.1" \/ v = "2.2" \/ v = "3.0".

(** Every integer field holds a value of its Go type. *)
Definition Postback_in_range (p : Postback) : Prop :=
  Go.in_int64 (CampaignID p) /\ Go.in_int64 (AppID p)
  /\ (forall a, SourceAppID p = Some a -> Go.in_int64 a)
  /\ (forall f, PFidelityType p = Some f -> Go.in_int64 f).

Definition Params_in_range (p : Rev2.Params) : Prop :=
  Go.in_int64 (Rev2.CampaignID p) /\ Go.in_int64 (Rev2.ItunesItemID p)
  /\ Go.in_int64 (Rev2.SourceAppStoreID p)
  /\ Go.in_int64 (Rev2.FidelityType p).

(** The two hex digits [hex.Encode] writes for a byte. *)
Definition hi (b : byte) : ascii :=
  Go.hexdigit (N.shiftr (Byte.to_N b) 4).
Definition lo (b : byte) : ascii :=
  Go.hexdigit (N.land (Byte.to_N b) 15).

(** A block the loader reads a private key from, and one it reads an
    ECDSA public key from. *)
Definition private_block `{Platform} (b : Block) (k : PrivateKey pubkey)
  : Prop :=
  Type_ b = "EC PRIVATE KEY" /\ x509_ParseECPrivateKey (Bytes b) = inr k.

Definition public_block `{Platform} (b : Block) (pub : pubkey) : Prop :=
  Type_ b = "PUBLIC KEY"
  /\ x509_ParsePKIXPublicKey (Bytes b) = inr (ECDSAPublicKey pub).

(** A block labelled as a public key whose bytes hold a key of another
    algorithm. *)
Definition foreign_key_block `{Platform} (b : Block) : Prop :=
  Type_ b = "PUBLIC KEY"
  /\ x509_ParsePKIXPublicKey (Bytes b) = inr OtherPublicKey.

(** The first byte of [separator]. *)
Definition lead_byte : ascii := ascii_of_nat 226.

(** No byte of the text is the first byte of the separator; every ASCII
    text is such. *)
Fixpoint lead_free (s : string) : bool :=
  match s with
  | EmptyString => true
  | String c rest => negb (Ascii.eqb c lead_byte) && lead_free rest
  end.

(** The text fields of a record that enter the message verbatim. *)
Definition Postback_text_clean (p : Postback) : Prop :=
  lead_free (Version p) = true /\ lead_free (AdNetworkID p) = true
  /\ lead_free (TransactionID p) = true.

Definition Params_text_clean (p : Rev2.Params) : Prop :=
  lead_free (Rev2.Version p) = true /\ lead_free (Rev2.AdNetworkID p) = true.

(** The pieces of a postback's item list: the six leading items, the
    optional source app id, and what the version adds after it (nothing
    when a field it renders is nil). *)
Definition Postback_lead_items (p : Postback) (redownload : bool)
  : list string :=
  [ Version p; AdNetworkID p; Go.Itoa (CampaignID p);
    Go.FormatInt (AppID p); TransactionID p; Go.FormatBool redownload ].

Definition Postback_src_items (p : Postback) : list string :=
  match SourceAppID p with
  | Some a => [Go.FormatInt a]
  | None => []
  end.

Definition Postback_ext_items (p : Postback) : option (list string) :=
  if String.eqb (Version p) "2.2" then
    match PFidelityType p with
    | Some f => Some [FidelityType_String f]
    | None => None
    end
  else if String.eqb (Version p) "3.0" then
    match PFidelityType p, DidWin p with
    | Some f, Some w => Some [FidelityType_String f; Go.FormatBool w]
    | _, _ => None
    end
  else Some [].

(** The parameter types of the first revision as the tagged struct of the
    second. *)
Definition tagged (version : string) (q : Rev1.params2_0)
    (fidelity : FidelityType) : Rev2.Params :=
  Rev2.mkParams version (Rev1.AdNetworkID q) (Rev1.CampaignID q)
    (Rev1.ItunesItemID q) (Rev1.Nonce q) (Rev1.SourceAppStoreID q)
    fidelity (Rev1.Timestamp q).

(** A block the loader cannot read a key from: its label is neither of
    the two it knows, or its bytes do not parse as the key its label
    announces. *)
Definition unreadable_block `{Platform} (b : Block) : Prop :=
  (Type_ b <> "EC PRIVATE KEY" /\ Type_ b <> "PUBLIC KEY")
  \/ (Type_ b = "EC PRIVATE KEY"
      /\ exists err, x509_ParseECPrivateKey (Bytes b) = inl err)
  \/ (Type_ b = "PUBLIC KEY"
      /\ exists err, x509_ParsePKIXPublicKey (Bytes b) = inl err).

(** ** Inputs of the package's tests and of its README *)

Module Examples.

(** [v3_0__lose] of [skadnetwork_test.go]. *)
Definition v3_0_lose : Postback := {|
  Version := "3.0";
  AdNetworkID := "example123.skadnetwork";
  TransactionID := "f9ac267a-a889-44ce-b5f7-0166d11461f0";
  CampaignID := 42;
  AppID := 525463029;
  AttributionSignature :=
    "MEUCIQDDetUtkyc/MiQvVJ5I6HIO1E7l598572Wljot2Onzd4wIgVJLzVcyAV+TXksGNoa0DTMXEPgNPeHCmD4fw1ABXX0g=";
  Redownload := Some true;
  SourceAppID := None;
  PFidelityType := Some SKRenderedAds;
  ConversionValue := None;
  DidWin := Some false
|}.

(** [v2_2] of [skadnetwork_test.go]. *)
Definition v2_2 : Postback := {|
  Version := "2.2";
  AdNetworkID := "com.example";
  TransactionID := "6aafb7a5-0170-41b5-bbe4-fe71dedf1e28";
  CampaignID := 42;
  AppID := 525463029;
  AttributionSignature :=
    "MEYCIQDTuQ1Z4Tpy9D3aEKbxLl5J5iKiTumcqZikuY/AOD2U7QIhAJAaiAv89AoquHXJffcieEQXdWHpcV8ZgbKN0EwV9/sY";
  Redownload := Some true;
  SourceAppID := Some 1234567891;
  PFidelityType := Some SKRenderedAds;
  ConversionValue := Some 20;
  DidWin := None
|}.

(** [v2_2] as the platform would send it had it left [redownload] out. *)
Definition v2_2_no_redownload : Postback := {|
  Version := "2.2";
  AdNetworkID := "com.example";
  TransactionID := "6aafb7a5-0170-41b5-bbe4-fe71dedf1e28";
  CampaignID := 42;
  AppID := 525463029;
  AttributionSignature :=
    "MEYCIQDTuQ1Z4Tpy9D3aEKbxLl5J5iKiTumcqZikuY/AOD2U7QIhAJAaiAv89AoquHXJffcieEQXdWHpcV8ZgbKN0EwV9/sY";
  Redownload := None;
  SourceAppID := Some 1234567891;
  PFidelityType := Some SKRenderedAds;
  ConversionValue := Some 20;
  DidWin := None
|}.

(** [uuid.MustParse("68483ef6-0ada-40df-ab6b-3d19a66330fa")] *)
Definition nonce : Go.UUID :=
  Go.mkUUID
    [ x68; x48; x3e; xf6; x0a; xda; x40; xdf;
      xab; x6b; x3d; x19; xa6; x63; x30; xfa ] eq_refl.

(** [time.Parse(time.RFC3339, "2022-05-06T10:00:00Z")] *)
Definition timestamp : Go.Time := Go.Date 2022 5 6 10 0 0 0.

(** The README's version 2.2 parameters. *)
Definition params_2_2 : Rev2.Params := {|
  Rev2.Version := "2.2";
  Rev2.AdNetworkID := "example123.skadnetwork";
  Rev2.CampaignID := 42;
  Rev2.ItunesItemID := 525463029;
  Rev2.Nonce := nonce;
  Rev2.SourceAppStoreID := 1234567891;
  Rev2.FidelityType := SKRenderedAds;
  Rev2.Timestamp := timestamp
|}.

(** The first case of [TestSignAndVerify]: no [Version] at all. *)
Definition params_unversioned : Rev2.Params := {|
  Rev2.Version := "";
  Rev2.AdNetworkID := "example123.skadnetwork";
  Rev2.CampaignID := 42;
  Rev2.ItunesItemID := 525463029;
  Rev2.Nonce := nonce;
  Rev2.SourceAppStoreID := 1234567891;
  Rev2.FidelityType := 0;
  Rev2.Timestamp := timestamp
|}.

(** Version 2.2 parameters with a fidelity value that is neither of the
    two named constants. *)
Definition params_fidelity_2 : Rev2.Params := {|
  Rev2.Version := "2.2";
  Rev2.AdNetworkID := "example123.skadnetwork";
  Rev2.CampaignID := 42;
  Rev2.ItunesItemID := 525463029;
  Rev2.Nonce := nonce;
  Rev2.SourceAppStoreID := 1234567891;
  Rev2.FidelityType := 2;
  Rev2.Timestamp := timestamp
|}.

(** A signer of the small platform, as [NewSigner] makes it from the one
    private-key block K42. *)
Definition toy_signer : @Signer Toy.platform :=
  mkSigner Toy.platform (Some (mkPrivateKey 1042 42)).

(** [v2_2] carrying the signature the small platform's authority key
    5000 gives its message. *)
Definition v2_2_toy_signed : Postback := {|
  Version := "2.2";
  AdNetworkID := "com.example";
  TransactionID := "6aafb7a5-0170-41b5-bbe4-fe71dedf1e28";
  CampaignID := 42;
  AppID := 525463029;
  AttributionSignature :=
    Toy.EncodeToString
      (list_byte_of_string
         (Toy.tagged 5000
            (list_byte_of_string
               (Go.Join [ "2.2"; "com.example"; "42"; "525463029";
                          "6aafb7a5-0170-41b5-bbe4-fe71dedf1e28"; "true";
                          "1234567891"; "1" ] separator))));
  Redownload := Some true;
  SourceAppID := Some 1234567891;
  PFidelityType := Some SKRenderedAds;
  ConversionValue := Some 20;
  DidWin := None
|}.

End Examples.

(** * Properties *)

(** ** Decimal rendering *)

Section Decimal.
Import Go Reading.

Lemma N_of_digit (d : Z) :
  0 <= d < 10 -> N_of_ascii (digit d) = (48 + Z.to_N d)%N.
Proof.
  intros Hd. unfold digit. apply N_ascii_embedding. lia.
Qed.

Lemma is_digit_digit (d : Z) : 0 <= d < 10 -> is_digit (digit d) = true.
Proof.
  intros Hd. unfold is_digit. rewrite N_of_digit by done.
  apply andb_true_intro; split; apply N.leb_le; lia.
Qed.

Lemma digit_nonzero (d : Z) : 0 < d < 10 -> Ascii.eqb (digit d) "0" = false.
Proof.
  intros Hd. apply Ascii.eqb_neq. intros Heq.
  apply (f_equal N_of_ascii) in Heq. rewrite N_of_digit in Heq by lia.
  simpl in Heq. lia.
Qed.

Lemma append_assoc (s t u : string) : (s +:+ t) +:+ u = s +:+ (t +:+ u).
Proof. induction s as [|c s IH]; simpl; congruence. Qed.

Lemma formatBits_acc (fuel : nat) : forall u acc,
  formatBits fuel u acc = formatBits fuel u "" +:+ acc.
Proof.
  induction fuel as [|fuel IH]; intros u acc; simpl; [done|].
  destruct (u <? 10); [done|].
  rewrite (IH _ (String _ acc)), (IH _ (String _ "")).
  by rewrite append_assoc.
Qed.

Lemma all_digits_app (s t : string) :
  all_digits (s +:+ t) = all_digits s && all_digits t.
Proof.
  induction s as [|c s IH]; simpl; [done|].
  by rewrite IH, andb_assoc.
Qed.

Lemma digits_value_snoc (s : string) (c : ascii) : forall acc,
  digits_value (s +:+ String c "") acc
  = 10 * digits_value s acc + (Z.of_N (N_of_ascii c) - 48).
Proof.
  induction s as [|c' s IH]; intros acc; simpl; [done|]. apply IH.
Qed.

Lemma pow10_step (fuel : nat) (u : Z) :
  0 <= u < 10 ^ Z.of_nat (S fuel) -> 0 <= u / 10 < 10 ^ Z.of_nat fuel.
Proof.
  intros [Hlo Hhi]. split; [apply Z.div_pos; lia|].
  apply Z.div_lt_upper_bound; [lia|].
  rewrite Nat2Z.inj_succ, Z.pow_succ_r in Hhi by lia. lia.
Qed.

Lemma formatBits_digits (fuel : nat) : forall u,
  0 <= u -> all_digits (formatBits fuel u "") = true.
Proof.
  induction fuel as [|fuel IH]; intros u Hu; simpl; [done|].
  destruct (Z.ltb_spec u 10).
  - simpl. rewrite is_digit_digit by lia. done.
  - rewrite formatBits_acc, all_digits_app, IH by (apply Z.div_pos; lia).
    simpl. rewrite is_digit_digit; [done|]. apply Z.mod_pos_bound. lia.
Qed.

Lemma formatBits_value (fuel : nat) : forall u,
  0 <= u < 10 ^ Z.of_nat fuel ->
  digits_value (formatBits fuel u "") 0 = u.
Proof.
  induction fuel as [|fuel IH]; intros u Hu.
  - simpl in *. lia.
  - simpl. destruct (Z.ltb_spec u 10).
    + simpl. rewrite N_of_digit by lia. lia.
    + rewrite formatBits_acc, digits_value_snoc, IH by by apply pow10_step.
      rewrite N_of_digit by (apply Z.mod_pos_bound; lia).
      pose proof (Z.mod_pos_bound u 10 ltac:(lia)).
      pose proof (Z.div_mod u 10 ltac:(lia)). lia.
Qed.

Lemma formatBits_head (fuel : nat) : forall u acc,
  0 < u < 10 ^ Z.of_nat fuel ->
  exists c rest, formatBits fuel u acc = String c rest
                 /\ Ascii.eqb c "0" = false.
Proof.
  induction fuel as [|fuel IH]; intros u acc Hu.
  - simpl in *. lia.
  - simpl. destruct (Z.ltb_spec u 10).
    + eexists _, _. split; [done|]. apply digit_nonzero. lia.
    + apply IH. pose proof (pow10_step fuel u ltac:(lia)).
      assert (0 < u / 10) by (apply Z.div_str_pos; lia). lia.
Qed.

Lemma formatBits_canonical (fuel : nat) (u : Z) :
  fuel <> O -> 0 <= u < 10 ^ Z.of_nat fuel ->
  canonical_nat (formatBits fuel u "") = true.
Proof.
  intros Hf Hu. destruct (decide (u = 0)) as [->|Hne].
  - destruct fuel; done.
  - destruct (formatBits_head fuel u "" ltac:(lia)) as (c & rest & Heq & Hc).
    pose proof (formatBits_digits fuel u ltac:(lia)) as Hd.
    rewrite Heq in *. unfold canonical_nat. rewrite Hd, Hc. done.
Qed.

Lemma formatBits_not_zero (fuel : nat) (u : Z) :
  0 < u < 10 ^ Z.of_nat fuel ->
  String.eqb (formatBits fuel u "") "0" = false.
Proof.
  intros Hu. destruct (formatBits_head fuel u "" Hu) as (c & rest & -> & Hc).
  simpl. by rewrite Hc.
Qed.

Lemma formatBits_not_minus (fuel : nat) (u : Z) :
  0 <= u < 10 ^ Z.of_nat fuel ->
  forall rest, formatBits fuel u "" <> String "-" rest.
Proof.
  intros Hu rest Heq.
  pose proof (formatBits_digits fuel u ltac:(lia)) as Hd.
  rewrite Heq in Hd. simpl in Hd. done.
Qed.

(** [FormatInt] writes the canonical base-10 text of every int64. *)
Lemma FormatInt_decimal (z : Z) :
  in_int64 z -> decimal_value (FormatInt z) = Some z.
Proof.
  unfold in_int64, int64_min, int64_max. intros Hz.
  assert (2 ^ 63 < 10 ^ Z.of_nat 20) by (vm_compute; done).
  unfold FormatInt. destruct (Z.ltb_spec z 0).
  - unfold decimal_value.
    rewrite formatBits_canonical, formatBits_not_zero, formatBits_value
      by lia.
    simpl. f_equal. lia.
  - assert (Hr : 0 <= z < 10 ^ Z.of_nat 20) by lia.
    pose proof (formatBits_canonical 20 z ltac:(done) Hr) as Hc.
    pose proof (formatBits_value 20 z Hr) as Hv.
    pose proof (formatBits_not_minus 20 z Hr) as Hm.
    destruct (formatBits 20 z "") as [|c rest] eqn:Heq; [done|].
    unfold decimal_value.
    destruct (Ascii.eqb_spec c "-") as [->|Hne]; [by destruct (Hm rest)|].
    assert (Hgo : (if canonical_nat (String c rest)
                   then Some (digits_value (String c rest) 0) else None)
                  = Some z) by (rewrite Hc, Hv; done).
    destruct c as [[] [] [] [] [] [] [] []]; try exact Hgo. done.
Qed.

Lemma wrap64_in_int64 (z : Z) : in_int64 (wrap64 z).
Proof.
  unfold in_int64, wrap64, int64_min, int64_max.
  pose proof (Z.mod_pos_bound (z + 2 ^ 63) (2 ^ 64) ltac:(lia)). lia.
Qed.

Lemma wrap64_id (z : Z) : in_int64 z -> wrap64 z = z.
Proof.
  unfold in_int64, wrap64, int64_min, int64_max. intros Hz.
  rewrite Z.mod_small; lia.
Qed.

End Decimal.

(** ** UUID rendering *)

Section UUIDText.
Import Go Reading.

Lemma hi_lower_hex (b : byte) : is_lower_hex (hi b) = true.
Proof. destruct b; vm_compute; reflexivity. Qed.

Lemma lo_lower_hex (b : byte) : is_lower_hex (lo b) = true.
Proof. destruct b; vm_compute; reflexivity. Qed.

Lemma hi_not_hyphen (b : byte) : Ascii.eqb (hi b) "-" = false.
Proof. destruct b; vm_compute; reflexivity. Qed.

Lemma lo_not_hyphen (b : byte) : Ascii.eqb (lo b) "-" = false.
Proof. destruct b; vm_compute; reflexivity. Qed.

Lemma byte_of_hex_hi_lo (b : byte) : byte_of_hex (hi b) (lo b) = b.
Proof. destruct b; vm_compute; reflexivity. Qed.

Lemma hexEncode_cons (b : byte) (rest : list byte) :
  hexEncode (b :: rest) = String (hi b) (String (lo b) (hexEncode rest)).
Proof. reflexivity. Qed.

Ltac sixteen u :=
  let bs := fresh "bs" in
  let Hlen := fresh "Hlen" in
  destruct u as [bs Hlen];
  do 16 (destruct bs as [|? bs]; [discriminate Hlen|]);
  destruct bs; [|discriminate Hlen];
  unfold UUID_String, slice;
  cbn [uuid_bytes firstn skipn Nat.sub];
  rewrite !hexEncode_cons;
  cbn [hexEncode String.append].

Lemma UUID_String_canonical (u : UUID) :
  canonical_uuid (UUID_String u) = true.
Proof.
  sixteen u. unfold canonical_uuid.
  cbn [uuid_shape Nat.eqb orb].
  rewrite !hi_lower_hex, !lo_lower_hex. reflexivity.
Qed.

Lemma without_hyphens_pair (b : byte) (rest : string) :
  without_hyphens (String (hi b) (String (lo b) rest))
  = String (hi b) (String (lo b) (without_hyphens rest)).
Proof.
  cbn [without_hyphens]. by rewrite hi_not_hyphen, lo_not_hyphen.
Qed.

Lemma without_hyphens_hyphen (rest : string) :
  without_hyphens (String "-" rest) = without_hyphens rest.
Proof. reflexivity. Qed.

Lemma hex_bytes_pair (b : byte) (rest : string) :
  hex_bytes (String (hi b) (String (lo b) rest)) = b :: hex_bytes rest.
Proof. cbn [hex_bytes]. by rewrite byte_of_hex_hi_lo. Qed.

Lemma UUID_String_value (u : UUID) :
  uuid_value (UUID_String u) = uuid_bytes u.
Proof.
  sixteen u. unfold uuid_value.
  repeat (rewrite without_hyphens_pair || rewrite without_hyphens_hyphen).
  rewrite !hex_bytes_pair. reflexivity.
Qed.

End UUIDText.

(** ** Postback canonicalisation *)

Section PostbackItems.

Lemma supported_cases (v : string) :
  supported v ->
  (String.eqb v "2.1" = true /\ String.eqb v "2.2" = false
   /\ String.eqb v "3.0" = false /\ v = "2.1")
  \/ (String.eqb v "2.1" = false /\ String.eqb v "2.2" = true
      /\ String.eqb v "3.0" = false /\ v = "2.2")
  \/ (String.eqb v "2.1" = false /\ String.eqb v "2.2" = false
      /\ String.eqb v "3.0" = true /\ v = "3.0").
Proof. intros [-> | [-> | ->]]; auto 10. Qed.

Lemma unsupported_cases (v : string) :
  ~ supported v ->
  String.eqb v "2.1" = false /\ String.eqb v "2.2" = false
  /\ String.eqb v "3.0" = false.
Proof.
  unfold supported. intros Hn.
  repeat split; apply String.eqb_neq; intros ->; tauto.
Qed.

(** On a supported version the per-version rules of the first revision
    are the single rule of the second. *)
Lemma Rev1_items_supported (p : Postback) :
  supported (Version p) ->
  Rev1.Postback_items p = Some (Rev2.Postback_toItems p).
Proof.
  intros Hv. unfold Rev1.Postback_items, Rev2.Postback_toItems,
    Rev1.Postback_toItems2_1, Rev1.Postback_toItems2_2,
    Rev1.Postback_toItems3_0.
  destruct (supported_cases _ Hv) as [H | [H | H]];
    destruct H as (H1 & H2 & H3 & H4);
    rewrite ?H1, ?H2, ?H3, ?H4; reflexivity.
Qed.

(** C1.  On a postback whose version is 2.1, 2.2 or 3.0 the items handed
    to verification are: version, ad network id, campaign id, app id,
    transaction id, redownload, in that order; then the source app id,
    present exactly when the field is; then the fidelity item, present
    exactly for 2.2 and 3.0; then the win flag, present exactly for 3.0.
    The list is produced exactly when the fields it renders are there,
    and both revisions produce the same list. *)
Theorem postback_item_order (p : Postback) (items : list string) :
  supported (Version p) ->
  (Rev2.Postback_toItems p = Ret items <->
   exists rd src fid win,
     Redownload p = Some rd
     /\ items =
          [ Version p; AdNetworkID p; Go.Itoa (CampaignID p);
            Go.FormatInt (AppID p); TransactionID p; Go.FormatBool rd ]
          ++ src ++ fid ++ win
     /\ src = match SourceAppID p with
              | Some a => [Go.FormatInt a]
              | None => []
              end
     /\ ((Version p = "2.1" /\ fid = [])
         \/ ((Version p = "2.2" \/ Version p = "3.0")
             /\ exists f, PFidelityType p = Some f
                          /\ fid = [FidelityType_String f]))
     /\ ((Version p <> "3.0" /\ win = [])
         \/ (Version p = "3.0"
             /\ exists w, DidWin p = Some w /\ win = [Go.FormatBool w])))
  /\ Rev1.Postback_items p = Some (Rev2.Postback_toItems p).
Proof.
  intros Hv. split; [|by apply Rev1_items_supported].
  unfold Rev2.Postback_toItems.
  destruct (supported_cases _ Hv) as [H | [H | H]];
    destruct H as (_ & H2 & H3 & Hveq); rewrite ?H2, ?H3, ?Hveq;
    destruct (Redownload p) as [rd|], (SourceAppID p) as [a|],
      (PFidelityType p) as [f|], (DidWin p) as [w|];
    simpl; (split; [intros Hret | intros Hlay]).
  all: try discriminate Hret.
  all: try (injection Hret as <-).
  all: try (destruct Hlay as
              (rd' & src & fid & win & Hrd & -> & -> & Hfid & Hwin);
            destruct Hfid as [[Hq ->] | [Hq (f' & Hf & ->)]];
            destruct Hwin as [[Hn ->] | [Hq' (w' & Hw & ->)]];
            try (destruct Hq as [Hq|Hq]);
            simplify_eq; reflexivity).
  all: eexists _, _, _, _; split; [reflexivity|].
  all: split; [|split; [reflexivity|]].
  all: try (split; [left; split; [reflexivity|reflexivity] |]).
  all: try (split; [right; split; [auto|eexists; split; reflexivity] |]).
  all: try (left; split; [discriminate|reflexivity]).
  all: try (right; split; [reflexivity|eexists; split; reflexivity]).
  all: reflexivity.
Qed.

(** C8.  Dropping the source app id from a postback drops exactly the
    item at index 6, which is that id's rendering, and leaves every other
    item where it was; where one record yields no list, neither does the
    other.  Both revisions. *)
Theorem source_app_id_omission (p : Postback) (a : Z) :
  supported (Version p) ->
  SourceAppID p = Some a ->
  Rev2.Postback_toItems (set_SourceAppID None p)
  = omap (delete 6%nat) (Rev2.Postback_toItems p)
  /\ (forall items : list string,
        Rev2.Postback_toItems p = Ret items ->
        items !! 6%nat = Some (Go.FormatInt a))
  /\ Rev1.Postback_items (set_SourceAppID None p)
     = option_map (omap (delete 6%nat)) (Rev1.Postback_items p).
Proof.
  intros Hv Ha.
  assert (Hv' : supported (Version (set_SourceAppID None p))) by exact Hv.
  rewrite !Rev1_items_supported by done. simpl.
  assert (Hdel : Rev2.Postback_toItems (set_SourceAppID None p)
                 = omap (delete 6%nat) (Rev2.Postback_toItems p)).
  { unfold Rev2.Postback_toItems. simpl. rewrite Ha.
    destruct (Redownload p); [|done]. simpl.
    destruct (String.eqb (Version p) "2.2");
      [destruct (PFidelityType p); done|].
    destruct (String.eqb (Version p) "3.0"); [|done].
    destruct (PFidelityType p); [|done]. destruct (DidWin p); done. }
  split_and!; [done| |by rewrite Hdel].
  unfold Rev2.Postback_toItems. rewrite Ha.
  destruct (Redownload p); [|done]. simpl.
  destruct (String.eqb (Version p) "2.2").
  { destruct (PFidelityType p); [|done]. by intros ? [= <-]. }
  destruct (String.eqb (Version p) "3.0"); [|by intros ? [= <-]].
  destruct (PFidelityType p); [|done].
  destruct (DidWin p); [|done]. by intros ? [= <-].
Qed.

End PostbackItems.

(** The scenario of the specification: version 3.0, redownload true, no
    source app id, fidelity 1, did-win false gives eight items ending in
    "1", "false". *)
Lemma postback_item_order_witness :
  supported (Version Examples.v3_0_lose)
  /\ Rev2.Postback_toItems Examples.v3_0_lose
     = Ret [ "3.0"; "example123.skadnetwork"; "42"; "525463029";
             "f9ac267a-a889-44ce-b5f7-0166d11461f0"; "true"; "1"; "false" ].
Proof.
  assert (Hv : supported (Version Examples.v3_0_lose))
    by (right; right; reflexivity).
  split; [exact Hv|].
  apply (postback_item_order Examples.v3_0_lose _ Hv).
  exists true, [], ["1"], ["false"].
  split; [reflexivity|]. split; [reflexivity|]. split; [reflexivity|].
  split.
  - right. split; [right; reflexivity|].
    exists SKRenderedAds. split; reflexivity.
  - right. split; [reflexivity|]. exists false. split; reflexivity.
Defined.

Lemma source_app_id_omission_witness :
  supported (Version Examples.v2_2)
  /\ SourceAppID Examples.v2_2 = Some 1234567891
  /\ Rev2.Postback_toItems (set_SourceAppID None Examples.v2_2)
     = omap (delete 6%nat) (Rev2.Postback_toItems Examples.v2_2).
Proof.
  assert (Hv : supported (Version Examples.v2_2)) by (right; left; reflexivity).
  split; [exact Hv|]. split; [reflexivity|].
  exact (proj1 (source_app_id_omission Examples.v2_2 1234567891 Hv eq_refl)).
Defined.

(** ** Verification of postbacks *)

Section PostbackVerification.
Context `{P : Platform}.

(** C10.  The conversion value is not one of the items: changing it
    changes neither the items, nor the message, nor the result of
    verification.  Both revisions, every version. *)
Theorem conversion_value_not_signed (p : Postback) (cv : option Z) :
  Rev2.Postback_toItems (set_ConversionValue cv p) = Rev2.Postback_toItems p
  /\ omap (fun items => Go.Join items separator)
       (Rev2.Postback_toItems (set_ConversionValue cv p))
     = omap (fun items => Go.Join items separator)
         (Rev2.Postback_toItems p)
  /\ Rev2.Verify (set_ConversionValue cv p) = Rev2.Verify p
  /\ Rev1.Postback_items (set_ConversionValue cv p) = Rev1.Postback_items p
  /\ Rev1.Verify (set_ConversionValue cv p) = Rev1.Verify p.
Proof. repeat split. Qed.

(** C7, what the code does.  A postback of a supported version without
    its redownload flag, or of version 3.0 without its win flag, makes
    verification panic on the nil dereference: no result and no error
    value come back.  Both revisions. *)
Theorem missing_flag_panics (p : Postback) :
  supported (Version p) ->
  Redownload p = None \/ (Version p = "3.0" /\ DidWin p = None) ->
  Rev2.Verify p = Panic /\ Rev1.Verify p = Panic.
Proof.
  intros Hv Hmiss.
  unfold Rev1.Verify, Rev1.Postback_verify.
  rewrite Rev1_items_supported by done.
  unfold Rev2.Verify, Rev2.Postback_verify.
  assert (Hitems : Rev2.Postback_toItems p = Panic).
  { unfold Rev2.Postback_toItems.
    destruct Hmiss as [-> | [Hv3 Hw]]; [done|].
    rewrite Hv3, Hw. simpl.
    destruct (Redownload p); [|done]. simpl.
    destruct (PFidelityType p); done. }
  rewrite Hitems.
  destruct (supported_cases _ Hv) as [H | [H | H]];
    destruct H as (-> & -> & -> & _); done.
Qed.

(** C3, as the code has it.  Postback verification refuses every version
    outside 2.1, 2.2, 3.0 with the unsupported-version error, before it
    reads any other field.  Signing and verifying parameters do not look
    at the version for admission: a tag other than 2.2 and 3.0 gets the
    seven-item layout, and the only errors the two can return are the
    signing error and the signature decoding error. *)
Theorem version_gating :
  (forall p : Postback,
      ~ supported (Version p) ->
      Rev2.Verify p = Ret (false, Some (ErrUnsupportedVersion (Version p)))
      /\ Rev1.Verify p
         = Ret (false, Some (ErrUnsupportedVersion (Version p)))
      /\ kind_of (ErrUnsupportedVersion (Version p))
         = Some UnsupportedVersionError)
  /\ (forall p : Rev2.Params,
         Rev2.Version p <> "2.2" -> Rev2.Version p <> "3.0" ->
         Rev2.Params_toItems p
         = [ Rev2.Version p; Rev2.AdNetworkID p;
             Go.Itoa (Rev2.CampaignID p);
             Go.FormatInt (Rev2.ItunesItemID p);
             Go.UUID_String (Rev2.Nonce p);
             Go.FormatInt (Rev2.SourceAppStoreID p);
             Go.FormatInt (Go.UnixMilli (Rev2.Timestamp p)) ])
  /\ (forall (s : Signer) (rnd : entropy) (p : Rev2.Params) sig e,
         Rev2.Signer_Sign s rnd p = Ret (sig, Some e) ->
         kind_of e = Some SigningError)
  /\ (forall (s : Signer) (p : Rev2.Params) sig ok e,
         Rev2.Signer_Verify s p sig = Ret (ok, Some e) ->
         kind_of e = Some DecodeError).
Proof.
  split_and!.
  - intros p Hn. destruct (unsupported_cases _ Hn) as (H1 & H2 & H3).
    unfold Rev2.Verify, Rev2.Postback_verify, Rev1.Verify,
      Rev1.Postback_verify, Rev1.Postback_items.
    by rewrite H1, H2, H3.
  - intros p H2 H3. unfold Rev2.Params_toItems.
    apply String.eqb_neq in H2, H3. by rewrite H2, H3.
  - intros s rnd p sig e. unfold Rev2.Signer_Sign, Signer_sign.
    destruct (key s); [|done]. simpl.
    destruct (ecdsa_SignASN1 _ _ _); by intros [= <- <-].
  - intros s p sig ok e. unfold Rev2.Signer_Verify, verify.
    destruct (key s); [|done]. simpl.
    destruct (base64_DecodeString sig); by intros [= <- <-].
Qed.

(** C5.  [verify] with a key in hand: a signature text that does not
    decode gives false together with the signature-decode error; one that
    decodes gives exactly the verdict of the ECDSA check and no error, so
    a well-formed but wrong signature is false without an error.  It
    never panics. *)
Theorem verify_outcomes (k : pubkey) (items : list string) (sig : string) :
  (forall err, base64_DecodeString sig = inl err ->
               verify (Some k) items sig
               = Ret (false, Some (ErrSignatureDecode sig))
               /\ kind_of (ErrSignatureDecode sig) = Some DecodeError)
  /\ (forall der, base64_DecodeString sig = inr der ->
                  verify (Some k) items sig
                  = Ret (ecdsa_VerifyASN1 k
                           (hash (Go.Join items separator)) der, None))
  /\ (exists ok oerr, verify (Some k) items sig = Ret (ok, oerr)
                      /\ (oerr <> None -> ok = false)).
Proof.
  unfold verify. destruct (base64_DecodeString sig) as [err|der]; simpl.
  - split_and!; [done|done|]. by eexists _, _.
  - split_and!; [done|by intros ? [= <-]|]. by eexists _, _.
Qed.

End PostbackVerification.

Lemma missing_flag_panics_witness :
  supported (Version Examples.v2_2_no_redownload)
  /\ Redownload Examples.v2_2_no_redownload = None
  /\ @Rev2.Verify Toy.platform Examples.v2_2_no_redownload = Panic
  /\ @Rev1.Verify Toy.platform Examples.v2_2_no_redownload = Panic.
Proof.
  assert (Hv : supported (Version Examples.v2_2_no_redownload))
    by (right; left; reflexivity).
  split; [exact Hv|]. split; [reflexivity|].
  exact (@missing_flag_panics Toy.platform Examples.v2_2_no_redownload
           Hv (or_introl eq_refl)).
Defined.

(** Signing the unversioned parameters of the package's own test succeeds:
    no unsupported-version error. *)
Lemma sign_unversioned_succeeds :
  ~ supported (Rev2.Version Examples.params_unversioned)
  /\ exists sig,
       @Rev2.Signer_Sign Toy.platform Examples.toy_signer 7
         Examples.params_unversioned = Ret (sig, None)
       /\ @Rev2.Signer_Verify Toy.platform Examples.toy_signer
            Examples.params_unversioned sig = Ret (true, None).
Proof.
  split.
  - intros [H | [H | H]]; discriminate H.
  - eexists. split; vm_compute; reflexivity.
Qed.

Lemma version_gating_witness :
  Rev2.Version Examples.params_unversioned <> "2.2"
  /\ Rev2.Version Examples.params_unversioned <> "3.0"
  /\ List.length (Rev2.Params_toItems Examples.params_unversioned) = 7%nat.
Proof.
  assert (H2 : Rev2.Version Examples.params_unversioned <> "2.2")
    by discriminate.
  assert (H3 : Rev2.Version Examples.params_unversioned <> "3.0")
    by discriminate.
  split; [exact H2|]. split; [exact H3|].
  rewrite (proj1 (proj2 (@version_gating Toy.platform))
             Examples.params_unversioned H2 H3).
  reflexivity.
Defined.

Lemma verify_outcomes_witness :
  @base64_DecodeString Toy.platform "not base64" 
  = inl (LibError "illegal base64 data at input byte 0")
  /\ @verify Toy.platform (Some 1042) ["2.2"] "not base64"
     = Ret (false, Some (ErrSignatureDecode "not base64")).
Proof.
  split; [reflexivity|].
  exact (proj1 (proj1 (@verify_outcomes Toy.platform 1042 ["2.2"]
                         "not base64") _ eq_refl)).
Defined.

(** ** Canonicalisation of signing parameters *)

Section ParamsItems.
Import Reading.

(** C2, as the code has it.  The README's version 2.2 parameters
    canonicalise to eight items, the fidelity item right after the source
    app store id and the timestamp last; 2022-05-06T10:00:00Z is
    1651831200000 milliseconds after the epoch.  The message is the items
    joined by U+2063.  The first revision's [Params2_2] gives the same
    items. *)
Theorem readme_params_items :
  Rev2.Params_toItems Examples.params_2_2
  = [ "2.2"; "example123.skadnetwork"; "42"; "525463029";
      "68483ef6-0ada-40df-ab6b-3d19a66330fa"; "1234567891"; "1";
      "1651831200000" ]
  /\ Go.Join (Rev2.Params_toItems Examples.params_2_2) separator
     = "2.2" +:+ separator +:+ "example123.skadnetwork" +:+ separator
       +:+ "42" +:+ separator +:+ "525463029" +:+ separator
       +:+ "68483ef6-0ada-40df-ab6b-3d19a66330fa" +:+ separator
       +:+ "1234567891" +:+ separator +:+ "1" +:+ separator
       +:+ "1651831200000"
  /\ Go.UnixMilli Examples.timestamp = 1651831200000
  /\ Rev1.Params2_2_toItems
       (Rev1.mkParams2_2
          (Rev1.mkParams2_1
             (Rev1.mkParams2_0 "example123.skadnetwork" 42 525463029
                Examples.nonce 1234567891 Examples.timestamp))
          SKRenderedAds)
     = Rev2.Params_toItems Examples.params_2_2.
Proof. repeat split. Qed.

(** The timestamp item the specification names, 1651824000000, is 08:00:00Z of
    that day; the items the code produces do not end in it, and the joined
    message differs. *)
Lemma readme_params_not_as_claimed :
  Rev2.Params_toItems Examples.params_2_2
  <> [ "2.2"; "example123.skadnetwork"; "42"; "525463029";
       "68483ef6-0ada-40df-ab6b-3d19a66330fa"; "1234567891"; "1";
       "1651824000000" ]
  /\ Go.Join (Rev2.Params_toItems Examples.params_2_2) separator
     <> Go.Join
          [ "2.2"; "example123.skadnetwork"; "42"; "525463029";
            "68483ef6-0ada-40df-ab6b-3d19a66330fa"; "1234567891"; "1";
            "1651824000000" ] separator
  /\ Go.UnixMilli (Go.Date 2022 5 6 8 0 0 0) = 1651824000000.
Proof.
  split_and!.
  - vm_compute. discriminate.
  - vm_compute. discriminate.
  - reflexivity.
Qed.

Lemma wrap64_add_l (a b : Z) :
  Go.wrap64 (Go.wrap64 a + b) = Go.wrap64 (a + b).
Proof.
  unfold Go.wrap64. f_equal.
  replace ((a + 2 ^ 63) mod 2 ^ 64 - 2 ^ 63 + b + 2 ^ 63)
    with ((a + 2 ^ 63) mod 2 ^ 64 + b) by lia.
  rewrite Z.add_mod_idemp_l by lia. f_equal. lia.
Qed.

(** Without overflow [UnixMilli] is the count of whole milliseconds. *)
Lemma UnixMilli_exact (t : Go.Time) :
  0 <= Go.nsec t ->
  Go.in_int64 (Go.unixSec t * 1000 + Go.nsec t / 1000000) ->
  Go.UnixMilli t = Go.unixSec t * 1000 + Go.nsec t / 1000000.
Proof.
  intros Hn Hr. unfold Go.UnixMilli.
  rewrite Z.quot_div_nonneg by lia.
  rewrite wrap64_add_l. by apply wrap64_id.
Qed.

End ParamsItems.

(** ** How the items are rendered *)

Section Renderings.
Import Reading.

Lemma FidelityType_String_named (f : FidelityType) :
  (f = SKRenderedAds -> FidelityType_String f = "1")
  /\ (f = ViewThroughAds -> FidelityType_String f = "0").
Proof. split; intros ->; reflexivity. Qed.

(** C9, as the code has it.  In the items of signing parameters the
    campaign id, the product id and the source app store id are the
    canonical base-10 texts of their values, the nonce is the lower-case
    hyphenated text of its sixteen bytes, and the last item is the
    canonical base-10 text of the timestamp's [UnixMilli], the count of
    whole milliseconds since the epoch.  In the items of a postback the
    campaign id and the app id are canonical base-10 texts, the
    redownload item is "true" or "false" as the flag is, and every later
    item is the base-10 text of the source app id or of the fidelity
    value, or "true" or "false" as the win flag is.  A fidelity item is
    the base-10 text of whatever integer the field holds: "1" for
    [SKRenderedAds], "0" for [ViewThroughAds]. *)
Theorem item_renderings :
  (forall p : Rev2.Params,
      Params_in_range p ->
      let items := Rev2.Params_toItems p in
      (exists c, items !! 2%nat = Some c
                 /\ decimal_value c = Some (Rev2.CampaignID p))
      /\ (exists i, items !! 3%nat = Some i
                    /\ decimal_value i = Some (Rev2.ItunesItemID p))
      /\ (exists n, items !! 4%nat = Some n
                    /\ canonical_uuid n = true
                    /\ uuid_value n = Go.uuid_bytes (Rev2.Nonce p))
      /\ (exists a, items !! 5%nat = Some a
                    /\ decimal_value a = Some (Rev2.SourceAppStoreID p))
      /\ (exists t, last items = Some t
                    /\ decimal_value t
                       = Some (Go.UnixMilli (Rev2.Timestamp p)))
      /\ (Rev2.Version p = "2.2" \/ Rev2.Version p = "3.0" ->
          exists f, items !! 6%nat = Some f
                    /\ List.length items = 8%nat
                    /\ decimal_value f = Some (Rev2.FidelityType p)
                    /\ (Rev2.FidelityType p = SKRenderedAds -> f = "1")
                    /\ (Rev2.FidelityType p = ViewThroughAds -> f = "0"))
      /\ (Rev2.Version p <> "2.2" -> Rev2.Version p <> "3.0" ->
          List.length items = 7%nat))
  /\ (forall t : Go.Time,
         0 <= Go.nsec t ->
         Go.in_int64 (Go.unixSec t * 1000 + Go.nsec t / 1000000) ->
         Go.UnixMilli t = Go.unixSec t * 1000 + Go.nsec t / 1000000)
  /\ (forall (p : Postback) (items : list string),
         Postback_in_range p ->
         Rev2.Postback_toItems p = Ret items ->
         (exists c, items !! 2%nat = Some c
                    /\ decimal_value c = Some (CampaignID p))
         /\ (exists a, items !! 3%nat = Some a
                       /\ decimal_value a = Some (AppID p))
         /\ (exists rd, Redownload p = Some rd
                        /\ items !! 5%nat
                           = Some (if rd then "true" else "false"))
         /\ (forall (i : nat) (s : string),
                (6 <= i)%nat -> items !! i = Some s ->
                (exists a, SourceAppID p = Some a
                           /\ decimal_value s = Some a)
                \/ (exists f, PFidelityType p = Some f
                              /\ decimal_value s = Some f
                              /\ (f = SKRenderedAds -> s = "1")
                              /\ (f = ViewThroughAds -> s = "0"))
                \/ (exists w, DidWin p = Some w
                              /\ s = if w then "true" else "false"))).
Proof.
  split_and!.
  - intros p (Hc & Hi & Ha & Hf) items. subst items.
    unfold Rev2.Params_toItems, Go.Itoa, FidelityType_String.
    destruct (String.eqb (Rev2.Version p) "2.2"
              || String.eqb (Rev2.Version p) "3.0") eqn:Hb;
      first [apply orb_prop in Hb | apply orb_false_elim in Hb]; simpl.
    all: split_and!.
    all: try (eexists; split; [reflexivity|by apply FormatInt_decimal]).
    all: try (eexists; split; [reflexivity|];
              split; [apply UUID_String_canonical|apply UUID_String_value]).
    all: try (eexists; split;
              [reflexivity|apply FormatInt_decimal, wrap64_in_int64]).
    + intros _. eexists; split_and!; [reflexivity|reflexivity| | |].
      * by apply FormatInt_decimal.
      * by intros ->.
      * by intros ->.
    + intros H2%String.eqb_neq H3%String.eqb_neq.
      destruct Hb; congruence.
    + intros [Hv | Hv]; apply String.eqb_eq in Hv;
        destruct Hb; congruence.
    + done.
  - apply UnixMilli_exact.
  - intros p items (Hc & Ha & Hs & Hf).
    unfold Rev2.Postback_toItems, Go.Itoa, FidelityType_String.
    destruct (Redownload p) as [rd|]; [|done]. simpl.
    intros Hitems.
    assert (Hpre : exists tail,
               items = [ Version p; AdNetworkID p;
                         Go.FormatInt (CampaignID p);
                         Go.FormatInt (AppID p); TransactionID p;
                         Go.FormatBool rd ] ++ tail
               /\ forall s, s ∈ tail ->
                    (exists a, SourceAppID p = Some a
                               /\ s = Go.FormatInt a)
                    \/ (exists f, PFidelityType p = Some f
                                  /\ s = Go.FormatInt f)
                    \/ (exists w, DidWin p = Some w
                                  /\ s = Go.FormatBool w)).
    { destruct (SourceAppID p) as [a|], (String.eqb (Version p) "2.2"),
        (String.eqb (Version p) "3.0"), (PFidelityType p) as [f|],
        (DidWin p) as [w|]; simplify_eq/=;
        eexists; (split; [reflexivity|]);
        intros s Hin; repeat (apply elem_of_cons in Hin as [-> | Hin]);
        try (by apply elem_of_nil in Hin); eauto 6. }
    destruct Hpre as (tail & -> & Htail). split_and!.
    + eexists; split; [reflexivity|by apply FormatInt_decimal].
    + eexists; split; [reflexivity|by apply FormatInt_decimal].
    + exists rd. by destruct rd.
    + intros i s Hi Hlook.
      do 6 (destruct i as [|i]; [lia|]). simpl in Hlook.
      apply list_elem_of_lookup_2 in Hlook.
      destruct (Htail s Hlook) as [(a & Ea & ->) | [(f & Ef & ->)
                                  | (w & Ew & ->)]].
      * left. eauto using FormatInt_decimal.
      * right; left. exists f. split_and!; [done| | |].
        -- apply FormatInt_decimal; eauto.
        -- by intros ->.
        -- by intros ->.
      * right; right. exists w. by destruct w.
Qed.

End Renderings.

(** A fidelity value of 2 passes through: the item is "2", neither "0"
    nor "1". *)
Lemma fidelity_item_two :
  Rev2.Params_toItems Examples.params_fidelity_2 !! 6%nat = Some "2"
  /\ "2" <> "0" /\ "2" <> "1".
Proof. split_and!; [reflexivity|discriminate|discriminate]. Qed.

Lemma item_renderings_witness :
  Params_in_range Examples.params_2_2
  /\ (Rev2.Version Examples.params_2_2 = "2.2"
      \/ Rev2.Version Examples.params_2_2 = "3.0")
  /\ exists f, Rev2.Params_toItems Examples.params_2_2 !! 6%nat = Some f
               /\ Reading.decimal_value f = Some 1.
Proof.
  assert (Hr : Params_in_range Examples.params_2_2)
    by (unfold Params_in_range, Go.in_int64; vm_compute; intuition discriminate).
  split; [exact Hr|]. split; [left; reflexivity|].
  destruct (proj1 item_renderings Examples.params_2_2 Hr)
    as (_ & _ & _ & _ & _ & Hfid & _).
  destruct (Hfid (or_introl eq_refl)) as (f & Hf & _ & Hd & _).
  exists f. split; [exact Hf|exact Hd].
Defined.

(** ** Keys and the signing round trip *)

Section KeysAndRoundTrip.
Context `{P : Platform}.

(** What [decodePEM] of the second revision accepts, and what it
    returns otherwise. *)
Lemma Rev2_decodePEM_cases (data : string) :
  (exists block k,
      pem_Decode (list_byte_of_string data) = (Some block, [])
      /\ Type_ block = "EC PRIVATE KEY"
      /\ x509_ParseECPrivateKey (Bytes block) = inr k
      /\ Rev2.decodePEM data = (Some k, None))
  \/ (exists e, Rev2.decodePEM data = (None, Some e)
                /\ kind_of e = Some FormatError).
Proof.
  unfold Rev2.decodePEM.
  destruct (pem_Decode (list_byte_of_string data)) as [[block|] rest];
    [|right; by eexists].
  destruct rest as [|b rest]; simpl; [|right; by eexists].
  destruct (String.eqb_spec (Type_ block) "EC PRIVATE KEY") as [Ht|Ht];
    simpl; [|right; by eexists].
  destruct (x509_ParseECPrivateKey (Bytes block)) as [err|k] eqn:Hk;
    [right; by eexists|].
  left. by exists block, k.
Qed.

(** C4.  A signer that [NewSigner] made gets a result from [Sign], never
    a panic, and whenever that result is a signature without error,
    verifying the same parameters against it returns true without error.
    The libraries are assumed to satisfy [PlatformLaws]: base64 decodes
    what it encoded, a parsed private key carries the public key of its
    scalar, and ECDSA accepts its own signatures. *)
Theorem sign_verify_round_trip `{!PlatformLaws P}
    (pem : string) (s : Signer) (p : Rev2.Params) (rnd : entropy) :
  Rev2.NewSigner pem = (Some s, None) ->
  (exists r, Rev2.Signer_Sign s rnd p = Ret r)
  /\ (forall sig : string,
         Rev2.Signer_Sign s rnd p = Ret (sig, None) ->
         Rev2.Signer_Verify s p sig = Ret (true, None)).
Proof.
  unfold Rev2.NewSigner. intros Hnew.
  destruct (Rev2_decodePEM_cases pem)
    as [(block & k & _ & _ & Hparse & Hdec) | (e & Hdec & _)];
    rewrite Hdec in Hnew; [|discriminate Hnew].
  injection Hnew as <-.
  unfold Rev2.Signer_Sign, Rev2.Signer_Verify, Signer_sign, verify.
  simpl.
  destruct (ecdsa_SignASN1 rnd k _) as [err|der] eqn:Hder;
    (split; [by eexists|]); intros sig Hsign; [discriminate Hsign|].
  injection Hsign as <-.
  rewrite base64_round_trip. simpl.
  pose proof (parsed_key_is_pair _ _ Hparse) as Hpub.
  destruct k as [pub d]. simpl in *. subst pub.
  by rewrite (ecdsa_complete _ _ _ _ Hder).
Qed.

Lemma decodeBlocks_2 (d : list byte) (bs : list Block) (rest : list byte) :
  Rev1.decodeBlocks 2 d = Some (bs, rest) ->
  exists b1 b2 r1,
    pem_Decode d = (Some b1, r1) /\ pem_Decode r1 = (Some b2, rest)
    /\ bs = [b1; b2].
Proof.
  simpl. destruct (pem_Decode d) as [[b1|] r1] eqn:H1; [|done].
  destruct (pem_Decode r1) as [[b2|] r2] eqn:H2; [|done].
  intros [= <- <-]. by exists b1, b2, r1.
Qed.

Lemma label_private (b : Block) :
  Type_ b = "EC PRIVATE KEY" ->
  String.eqb (Type_ b) "EC PRIVATE KEY" = true.
Proof. by intros ->. Qed.

Lemma label_public (b : Block) :
  Type_ b = "PUBLIC KEY" ->
  String.eqb (Type_ b) "EC PRIVATE KEY" = false
  /\ String.eqb (Type_ b) "PUBLIC KEY" = true.
Proof. by intros ->. Qed.

Ltac case_block b :=
  destruct (String.eqb_spec (Type_ b) "EC PRIVATE KEY");
  [ destruct (x509_ParseECPrivateKey (Bytes b)) eqn:?
  | destruct (String.eqb_spec (Type_ b) "PUBLIC KEY");
    [ destruct (x509_ParsePKIXPublicKey (Bytes b)) as [?|[?|]] eqn:? | ] ].

(** C6, as the code has it.  The loader of the first revision wants two
    blocks and nothing after them, one private key and one ECDSA public
    key in either order: then, and only then, it returns a key pair,
    which is the parsed private scalar with the parsed public key bound
    onto it.  With fewer than two blocks, or with bytes left after two,
    it returns the matching error; whatever it returns is either a key
    pair without error or an error of the format kind without any key.
    On input in which no public-key block holds a key of another
    algorithm it does return, a key pair or such an error, and it returns
    the error whenever one of the two blocks has a label it does not know
    or bytes that do not parse.  The loader of the second revision wants
    one private-key block and nothing after it, and returns the key as
    parsed, or else an error of the format kind without any key; a second
    block counts as bytes left over. *)
Theorem key_loading (data : string) :
  (Rev1.decodeBlocks 2 (list_byte_of_string data) = None ->
   Rev1.decodePEM data = Ret (None, Some ErrNoDataBlock))
  /\ (forall blocks rest,
         Rev1.decodeBlocks 2 (list_byte_of_string data)
         = Some (blocks, rest) ->
         rest <> [] ->
         Rev1.decodePEM data = Ret (None, Some ErrOnly2Blocks))
  /\ (forall r,
         Rev1.decodePEM data = Ret r ->
         (exists e, r = (None, Some e) /\ kind_of e = Some FormatError)
         \/ (exists k, r = (Some k, None)))
  /\ (forall k,
         Rev1.decodePEM data = Ret (Some k, None) <->
         exists b1 b2 priv pub,
           Rev1.decodeBlocks 2 (list_byte_of_string data)
           = Some ([b1; b2], [])
           /\ ((private_block b1 priv /\ public_block b2 pub)
               \/ (public_block b1 pub /\ private_block b2 priv))
           /\ k = mkPrivateKey pub (D priv))
  /\ (forall blocks rest,
         Rev1.decodeBlocks 2 (list_byte_of_string data)
         = Some (blocks, rest) ->
         (forall b, b ∈ blocks -> ~ foreign_key_block b) ->
         exists r, Rev1.decodePEM data = Ret r)
  /\ (forall k,
         Rev2.decodePEM data = (Some k, None) <->
         exists block,
           pem_Decode (list_byte_of_string data) = (Some block, [])
           /\ private_block block k)
  /\ ((exists k, Rev2.decodePEM data = (Some k, None))
      \/ (exists e, Rev2.decodePEM data = (None, Some e)
                    /\ kind_of e = Some FormatError))
  /\ (forall block rest,
         pem_Decode (list_byte_of_string data) = (Some block, rest) ->
         rest <> [] ->
         Rev2.decodePEM data = (None, Some ErrOnly2Blocks))
  /\ (forall blocks rest,
         Rev1.decodeBlocks 2 (list_byte_of_string data)
         = Some (blocks, rest) ->
         (forall b, b ∈ blocks -> ~ foreign_key_block b) ->
         (exists k, Rev1.decodePEM data = Ret (Some k, None))
         \/ (exists e, Rev1.decodePEM data = Ret (None, Some e)
                       /\ kind_of e = Some FormatError))
  /\ (forall blocks rest b,
         Rev1.decodeBlocks 2 (list_byte_of_string data)
         = Some (blocks, rest) ->
         (forall b, b ∈ blocks -> ~ foreign_key_block b) ->
         b ∈ blocks -> unreadable_block b ->
         exists e, Rev1.decodePEM data = Ret (None, Some e)
                   /\ kind_of e = Some FormatError).
Proof.
  split_and!.
  - unfold Rev1.decodePEM. by intros ->.
  - unfold Rev1.decodePEM. intros blocks rest -> Hrest.
    by destruct rest.
  - intros r. unfold Rev1.decodePEM.
    destruct (Rev1.decodeBlocks 2 _) as [[blocks rest]|] eqn:Hdb;
      [|intros [= <-]; left; by eexists].
    destruct rest; simpl; [|intros [= <-]; left; by eexists].
    apply decodeBlocks_2 in Hdb as (b1 & b2 & r1 & _ & _ & ->).
    unfold Rev1.parseBlocks, Rev1.parseBlock, Rev1.parseECDSAPublicKey.
    case_block b1; simpl; case_block b2; simpl;
      intros [= <-]; (left; by eexists) || (right; by eexists).
  - intros k. split.
    + unfold Rev1.decodePEM.
      destruct (Rev1.decodeBlocks 2 _) as [[blocks rest]|] eqn:Hdb; [|done].
      destruct rest; simpl; [|done].
      destruct (decodeBlocks_2 _ _ _ Hdb) as (b1 & b2 & r1 & _ & _ & ->).
      unfold Rev1.parseBlocks, Rev1.parseBlock, Rev1.parseECDSAPublicKey.
      case_block b1; simpl; case_block b2; simpl; intros [= <-];
        eexists b1, b2, _, _; (split; [done|]);
        (split; [|reflexivity]); unfold private_block, public_block;
        eauto 6.
    + intros (b1 & b2 & priv & pub & Hdb & Hblocks & ->).
      unfold Rev1.decodePEM. rewrite Hdb. simpl.
      unfold Rev1.parseBlock, Rev1.parseECDSAPublicKey.
      destruct Hblocks as [[[Ht1 Hp1] [Ht2 Hp2]] | [[Ht1 Hp1] [Ht2 Hp2]]].
      * rewrite (label_private _ Ht1), Hp1. simpl.
        destruct (label_public _ Ht2) as [-> ->]. by rewrite Hp2.
      * destruct (label_public _ Ht1) as [-> ->]. rewrite Hp1. simpl.
        by rewrite (label_private _ Ht2), Hp2.
  - intros blocks rest Hdb Hforeign. unfold Rev1.decodePEM.
    rewrite Hdb. destruct rest; simpl; [|by eexists].
    apply decodeBlocks_2 in Hdb as (b1 & b2 & r1 & _ & _ & ->).
    assert (H1 : ~ foreign_key_block b1)
      by (apply Hforeign; rewrite !elem_of_cons; auto).
    assert (H2 : ~ foreign_key_block b2)
      by (apply Hforeign; rewrite !elem_of_cons; auto).
    unfold foreign_key_block in *.
    unfold Rev1.parseBlocks, Rev1.parseBlock, Rev1.parseECDSAPublicKey.
    case_block b1; simpl; try (by eexists); try tauto;
      case_block b2; simpl; try (by eexists); tauto.
  - intros k. split.
    + intros Hk.
      destruct (Rev2_decodePEM_cases data)
        as [(block & k' & Hd & Ht & Hp & Heq) | (e & Heq & _)];
        rewrite Heq in Hk; [|discriminate Hk].
      injection Hk as ->. by exists block.
    + intros (block & Hd & Ht & Hp). unfold Rev2.decodePEM.
      rewrite Hd. simpl. by rewrite (label_private _ Ht), Hp.
  - destruct (Rev2_decodePEM_cases data)
      as [(block & k & _ & _ & _ & Heq) | (e & Heq & Hkind)]; eauto.
  - intros block rest Hd Hrest. unfold Rev2.decodePEM. rewrite Hd.
    by destruct rest.
  - intros blocks rest Hdb Hforeign. unfold Rev1.decodePEM.
    rewrite Hdb. destruct rest; simpl; [|right; by eexists].
    apply decodeBlocks_2 in Hdb as (b1 & b2 & r1 & _ & _ & ->).
    assert (H1 : ~ foreign_key_block b1)
      by (apply Hforeign; rewrite !elem_of_cons; auto).
    assert (H2 : ~ foreign_key_block b2)
      by (apply Hforeign; rewrite !elem_of_cons; auto).
    unfold foreign_key_block in *.
    unfold Rev1.parseBlocks, Rev1.parseBlock, Rev1.parseECDSAPublicKey.
    case_block b1; simpl; try case_block b2; simpl;
      first [left; by eexists | right; by eexists | exfalso; tauto].
  - intros blocks rest b Hdb Hforeign Hin Hbad. unfold Rev1.decodePEM.
    rewrite Hdb. destruct rest; simpl; [|by eexists].
    apply decodeBlocks_2 in Hdb as (b1 & b2 & r1 & _ & _ & ->).
    assert (H1 : ~ foreign_key_block b1)
      by (apply Hforeign; rewrite !elem_of_cons; auto).
    assert (H2 : ~ foreign_key_block b2)
      by (apply Hforeign; rewrite !elem_of_cons; auto).
    assert (Hb : b = b1 \/ b = b2).
    { rewrite !elem_of_cons in Hin.
      destruct Hin as [? | [? | Hnil]]; auto. by apply elem_of_nil in Hnil. }
    clear Hin Hforeign. unfold foreign_key_block, unreadable_block in *.
    unfold Rev1.parseBlocks, Rev1.parseBlock, Rev1.parseECDSAPublicKey.
    case_block b1; simpl; try case_block b2; simpl;
      first [ by eexists
            | exfalso;
              destruct Hb as [-> | ->];
              destruct Hbad as [[? ?] | [[? [? ?]] | [? [? ?]]]];
              first [congruence | tauto] ].
Qed.

End KeysAndRoundTrip.

(** The small platform satisfies the laws. *)
#[export] Instance Toy_laws : PlatformLaws Toy.platform.
Proof.
  split.
  - intros der. simpl. unfold Toy.DecodeString, Toy.EncodeToString. simpl.
    by rewrite list_byte_of_string_of_list_byte.
  - intros der k. simpl. unfold Toy.ParseECPrivateKey.
    destruct (Reading.decimal_value _); by intros [= <-].
  - intros rnd d h der. simpl. unfold Toy.SignASN1, Toy.VerifyASN1.
    destruct (rnd =? 0); [done|]. intros [= <-]. simpl.
    rewrite string_of_list_byte_of_string. apply String.eqb_refl.
Qed.

Lemma sign_verify_round_trip_witness :
  @Rev2.NewSigner Toy.platform "K42;" = (Some Examples.toy_signer, None)
  /\ exists sig,
       @Rev2.Signer_Sign Toy.platform Examples.toy_signer 7
         Examples.params_2_2 = Ret (sig, None)
       /\ @Rev2.Signer_Verify Toy.platform Examples.toy_signer
            Examples.params_2_2 sig = Ret (true, None).
Proof.
  assert (Hnew : @Rev2.NewSigner Toy.platform "K42;"
                 = (Some Examples.toy_signer, None)) by reflexivity.
  split; [exact Hnew|].
  eexists. split; [vm_compute; reflexivity|].
  exact (proj2 (@sign_verify_round_trip Toy.platform Toy_laws "K42;"
                  Examples.toy_signer Examples.params_2_2 7 Hnew) _ eq_refl).
Defined.

(** One private-key block alone is accepted by the current loader, and a
    private-key block followed by its public-key block is refused.  The
    earlier loader binds whatever public key the second block holds, also
    one that is not the key of the private scalar. *)
Lemma one_block_is_accepted :
  @Rev1.decodeBlocks Toy.platform 2 (list_byte_of_string "K42;") = None
  /\ @Rev2.decodePEM Toy.platform "K42;"
     = (Some (mkPrivateKey 1042 42), None)
  /\ @Rev1.decodeBlocks Toy.platform 2 (list_byte_of_string "K42;P1042;")
     = Some ([ mkBlock "EC PRIVATE KEY" (list_byte_of_string "42");
               mkBlock "PUBLIC KEY" (list_byte_of_string "1042") ], [])
  /\ @Rev2.decodePEM Toy.platform "K42;P1042;" = (None, Some ErrOnly2Blocks)
  /\ @derive Toy.platform 42 <> 7
  /\ @Rev1.decodePEM Toy.platform "K42;P7;"
     = Ret (Some (mkPrivateKey 7 42), None).
Proof. split_and!; try reflexivity. vm_compute. discriminate. Qed.

Lemma key_loading_witness :
  @Rev1.decodeBlocks Toy.platform 2 (list_byte_of_string "K42;P1042;")
  = Some ([ mkBlock "EC PRIVATE KEY" (list_byte_of_string "42");
            mkBlock "PUBLIC KEY" (list_byte_of_string "1042") ], [])
  /\ @Rev1.decodePEM Toy.platform "K42;P1042;"
     = Ret (Some (mkPrivateKey 1042 42), None).
Proof.
  split; [reflexivity|].
  destruct (@key_loading Toy.platform "K42;P1042;")
    as (_ & _ & _ & Hiff & _).
  apply Hiff.
  exists (mkBlock "EC PRIVATE KEY" (list_byte_of_string "42")),
    (mkBlock "PUBLIC KEY" (list_byte_of_string "1042")),
    (mkPrivateKey 1042 42), 1042.
  split; [reflexivity|]. split; [|reflexivity].
  left. split; split; reflexivity.
Defined.


(** ** The message determines the items *)

Section Joining.
Import Reading.

Lemma separator_bytes :
  separator = String lead_byte (String (ascii_of_nat 129)
                                  (String (ascii_of_nat 163) "")).
Proof. reflexivity. Qed.

Lemma lead_free_app (s t : string) :
  lead_free (s +:+ t) = lead_free s && lead_free t.
Proof.
  induction s as [|c s IH]; simpl; [done|]. by rewrite IH, andb_assoc.
Qed.

Lemma lead_free_cut (x t : string) :
  lead_free (x +:+ String lead_byte t) = false.
Proof.
  induction x as [|c x IH]; [reflexivity|].
  simpl. rewrite IH. apply andb_false_r.
Qed.

(** Two texts without the lead byte, each followed by the lead byte, are
    cut at the same place. *)
Lemma cut_at_lead (x x' t t' : string) :
  lead_free x = true -> lead_free x' = true ->
  x +:+ String lead_byte t = x' +:+ String lead_byte t' ->
  x = x' /\ t = t'.
Proof.
  revert x'. induction x as [|c x IH]; intros [|c' x'] Hx Hx' Heq;
    simpl in *.
  - by injection Heq as ->.
  - injection Heq as <- _. by rewrite Ascii.eqb_refl in Hx'.
  - injection Heq as -> _. by rewrite Ascii.eqb_refl in Hx.
  - injection Heq as -> Heq.
    apply andb_prop in Hx as [_ Hx]. apply andb_prop in Hx' as [_ Hx'].
    destruct (IH x' Hx Hx' Heq) as [-> ->]. done.
Qed.

Lemma Join_cons (x y : string) (l : list string) :
  Go.Join (x :: y :: l) separator
  = x +:+ String lead_byte
            (String (ascii_of_nat 129)
               (String (ascii_of_nat 163) (Go.Join (y :: l) separator))).
Proof. reflexivity. Qed.

(** X5.  Joining with the separator loses nothing: two non-empty item
    lists whose items are free of the separator's first byte and that join
    to the same message are the same list. *)
Theorem Join_injective (l l' : list string) :
  l <> [] -> l' <> [] ->
  Forall (fun s => lead_free s = true) l ->
  Forall (fun s => lead_free s = true) l' ->
  Go.Join l separator = Go.Join l' separator ->
  l = l'.
Proof.
  revert l'. induction l as [|x l IH]; intros l' Hne Hne' Hl Hl' Heq;
    [done|].
  destruct l' as [|x' l']; [done|].
  apply Forall_cons in Hl as [Hx Hl]. apply Forall_cons in Hl' as [Hx' Hl'].
  destruct l as [|y l], l' as [|y' l'].
  - change (x = x') in Heq. by subst.
  - rewrite Join_cons in Heq. change (Go.Join [x] separator) with x in Heq.
    subst x. by rewrite lead_free_cut in Hx.
  - rewrite Join_cons in Heq. change (Go.Join [x'] separator) with x' in Heq.
    subst x'. by rewrite lead_free_cut in Hx'.
  - rewrite !Join_cons in Heq.
    destruct (cut_at_lead _ _ _ _ Hx Hx' Heq) as [-> Htail].
    injection Htail as Htail.
    f_equal. by apply IH.
Qed.

End Joining.

Lemma Join_injective_witness :
  Forall (fun s => lead_free s = true)
    (Rev2.Params_toItems Examples.params_2_2)
  /\ Go.Join (Rev2.Params_toItems Examples.params_2_2) separator
     = Go.Join [ "2.2"; "example123.skadnetwork"; "42"; "525463029";
                 "68483ef6-0ada-40df-ab6b-3d19a66330fa"; "1234567891"; "1";
                 "1651831200000" ] separator
  /\ Rev2.Params_toItems Examples.params_2_2
     = [ "2.2"; "example123.skadnetwork"; "42"; "525463029";
         "68483ef6-0ada-40df-ab6b-3d19a66330fa"; "1234567891"; "1";
         "1651831200000" ].
Proof.
  assert (Hclean : Forall (fun s => lead_free s = true)
                     (Rev2.Params_toItems Examples.params_2_2))
    by (vm_compute; repeat constructor).
  assert (Hclean' : Forall (fun s => lead_free s = true)
                      [ "2.2"; "example123.skadnetwork"; "42"; "525463029";
                        "68483ef6-0ada-40df-ab6b-3d19a66330fa"; "1234567891";
                        "1"; "1651831200000" ])
    by repeat constructor.
  split; [exact Hclean|]. split; [reflexivity|].
  apply (Join_injective (Rev2.Params_toItems Examples.params_2_2));
    [discriminate|discriminate|exact Hclean|exact Hclean'|reflexivity].
Defined.

(** An item that holds the separator joins like two items: without the
    condition on the items the message does not determine them. *)
Lemma Join_collision :
  Go.Join ["2.1"; "a" +:+ separator +:+ "7"; "5"] separator
  = Go.Join ["2.1"; "a"; "7" +:+ separator +:+ "5"] separator.
Proof. reflexivity. Qed.

(** ** The message determines the signed fields *)

Section SignedFields.
Import Reading.

#[local] Arguments Go.FormatInt : simpl never.
#[local] Arguments Go.UUID_String : simpl never.
#[local] Arguments Go.UnixMilli : simpl never.

Lemma lead_free_digits (s : string) :
  all_digits s = true -> lead_free s = true.
Proof.
  induction s as [|c s IH]; simpl; [done|].
  intros [Hc Hs]%andb_prop. rewrite (IH Hs), andb_true_r.
  destruct (Ascii.eqb_spec c lead_byte) as [->|]; [|done].
  vm_compute in Hc. discriminate Hc.
Qed.

Lemma lead_free_FormatInt (z : Z) : lead_free (Go.FormatInt z) = true.
Proof.
  unfold Go.FormatInt. destruct (Z.ltb_spec z 0).
  - cbn [lead_free]. rewrite lead_free_digits; [reflexivity|].
    apply formatBits_digits. lia.
  - by apply lead_free_digits, formatBits_digits.
Qed.

Lemma lead_free_FormatBool (b : bool) : lead_free (Go.FormatBool b) = true.
Proof. by destruct b. Qed.

Lemma lead_free_uuid_shape (s : string) : forall pos,
  uuid_shape pos s = true -> lead_free s = true.
Proof.
  induction s as [|c s IH]; intros pos; simpl; [done|].
  intros [Hc Hs]%andb_prop. rewrite (IH _ Hs), andb_true_r.
  destruct (Ascii.eqb_spec c lead_byte) as [->|]; [|done].
  match type of Hc with
  | context [if ?b then _ else _] => destruct b
  end; vm_compute in Hc; discriminate Hc.
Qed.

Lemma lead_free_UUID_String (u : Go.UUID) :
  lead_free (Go.UUID_String u) = true.
Proof. apply (lead_free_uuid_shape _ 0%nat), UUID_String_canonical. Qed.

Lemma FormatInt_inj (a b : Z) :
  Go.in_int64 a -> Go.in_int64 b -> Go.FormatInt a = Go.FormatInt b -> a = b.
Proof.
  intros Ha Hb Heq. apply FormatInt_decimal in Ha, Hb.
  rewrite Heq in Ha. congruence.
Qed.

Lemma FormatBool_inj (a b : bool) : Go.FormatBool a = Go.FormatBool b -> a = b.
Proof. by destruct a, b. Qed.

Lemma UUID_String_inj (u v : Go.UUID) :
  Go.UUID_String u = Go.UUID_String v -> Go.uuid_bytes u = Go.uuid_bytes v.
Proof.
  intros Heq. by rewrite <- (UUID_String_value u), Heq, UUID_String_value.
Qed.

Lemma Params_items_lead_free (p : Rev2.Params) :
  Params_text_clean p ->
  Forall (fun s => lead_free s = true) (Rev2.Params_toItems p).
Proof.
  intros [Hv Ha]. unfold Rev2.Params_toItems, Go.Itoa, FidelityType_String.
  destruct (_ || _); simpl;
    repeat (apply Forall_cons; split); try apply Forall_nil;
    auto using lead_free_FormatInt, lead_free_UUID_String.
Qed.

Lemma Params_items_not_nil (p : Rev2.Params) : Rev2.Params_toItems p <> [].
Proof. unfold Rev2.Params_toItems. by destruct (_ || _). Qed.

(** X7.  The message of signing parameters determines every field that
    is signed: two parameter sets with in-range integers and clean text
    fields whose items join to the same message have the same version,
    ad network id, campaign id, product id, nonce bytes, source app store
    id and millisecond timestamp, and for versions 2.2 and 3.0 the same
    fidelity value. *)
Theorem Params_message_determines_fields (p q : Rev2.Params) :
  Params_in_range p -> Params_in_range q ->
  Params_text_clean p -> Params_text_clean q ->
  Go.Join (Rev2.Params_toItems p) separator
  = Go.Join (Rev2.Params_toItems q) separator ->
  Rev2.Version p = Rev2.Version q
  /\ Rev2.AdNetworkID p = Rev2.AdNetworkID q
  /\ Rev2.CampaignID p = Rev2.CampaignID q
  /\ Rev2.ItunesItemID p = Rev2.ItunesItemID q
  /\ Go.uuid_bytes (Rev2.Nonce p) = Go.uuid_bytes (Rev2.Nonce q)
  /\ Rev2.SourceAppStoreID p = Rev2.SourceAppStoreID q
  /\ Go.UnixMilli (Rev2.Timestamp p) = Go.UnixMilli (Rev2.Timestamp q)
  /\ (Rev2.Version p = "2.2" \/ Rev2.Version p = "3.0" ->
      Rev2.FidelityType p = Rev2.FidelityType q).
Proof.
  intros (Hc & Hi & Ha & Hf) (Hc' & Hi' & Ha' & Hf') Hp Hq Hjoin.
  apply Join_injective in Hjoin;
    auto using Params_items_not_nil, Params_items_lead_free.
  unfold Rev2.Params_toItems, Go.Itoa, FidelityType_String in Hjoin.
  assert (Hhead : Rev2.Version p = Rev2.Version q).
  { by destruct (_ || _), (_ || _); injection Hjoin. }
  rewrite <- Hhead in Hjoin.
  destruct (String.eqb (Rev2.Version p) "2.2"
            || String.eqb (Rev2.Version p) "3.0") eqn:Hb;
    cbn [app] in Hjoin.
  - injection Hjoin as Hadn Hcamp Hitem Hnonce Hsrc Hfid Htime.
    apply FormatInt_inj in Hcamp, Hitem, Hsrc, Hfid; [|done..].
    apply FormatInt_inj in Htime; [|apply wrap64_in_int64..].
    apply UUID_String_inj in Hnonce. done.
  - injection Hjoin as Hadn Hcamp Hitem Hnonce Hsrc Htime.
    apply FormatInt_inj in Hcamp, Hitem, Hsrc; [|done..].
    apply FormatInt_inj in Htime; [|apply wrap64_in_int64..].
    apply UUID_String_inj in Hnonce. split_and!; try done.
    intros [Hv | Hv]; rewrite Hv in Hb; discriminate Hb.
Qed.

Lemma Postback_toItems_split (p : Postback) :
  Rev2.Postback_toItems p
  = match Redownload p, Postback_ext_items p with
    | Some rd, Some ext =>
        Ret (Postback_lead_items p rd ++ Postback_src_items p ++ ext)
    | _, _ => Panic
    end.
Proof.
  unfold Rev2.Postback_toItems, Postback_ext_items, Postback_src_items,
    Postback_lead_items.
  destruct (Redownload p), (SourceAppID p), (String.eqb (Version p) "2.2"),
    (String.eqb (Version p) "3.0"), (PFidelityType p), (DidWin p);
    reflexivity.
Qed.

Lemma Postback_items_lead_free (p : Postback) (items : list string) :
  Postback_text_clean p ->
  Rev2.Postback_toItems p = Ret items ->
  Forall (fun s => lead_free s = true) items.
Proof.
  intros (Hv & Ha & Ht). rewrite Postback_toItems_split.
  unfold Postback_ext_items, Postback_src_items, Postback_lead_items,
    Go.Itoa, FidelityType_String.
  destruct (Redownload p), (SourceAppID p), (String.eqb (Version p) "2.2"),
    (String.eqb (Version p) "3.0"), (PFidelityType p), (DidWin p);
    intros [= <-]; simpl;
    repeat (apply Forall_cons; split); try apply Forall_nil;
    auto using lead_free_FormatInt, lead_free_FormatBool.
Qed.

(** X6.  The message of a postback determines every field that is
    signed: two postbacks with in-range integers and clean text fields
    whose items join to the same message have the same version, ad
    network id, campaign id, app id, transaction id, redownload flag and
    source app id (present or absent alike), for versions 2.2 and 3.0 the
    same fidelity value, and for version 3.0 the same win flag. *)
Theorem Postback_message_determines_fields (p q : Postback)
    (ip iq : list string) :
  Postback_in_range p -> Postback_in_range q ->
  Postback_text_clean p -> Postback_text_clean q ->
  Rev2.Postback_toItems p = Ret ip ->
  Rev2.Postback_toItems q = Ret iq ->
  Go.Join ip separator = Go.Join iq separator ->
  Version p = Version q
  /\ AdNetworkID p = AdNetworkID q
  /\ CampaignID p = CampaignID q
  /\ AppID p = AppID q
  /\ TransactionID p = TransactionID q
  /\ Redownload p = Redownload q
  /\ SourceAppID p = SourceAppID q
  /\ (Version p = "2.2" \/ Version p = "3.0" ->
      PFidelityType p = PFidelityType q)
  /\ (Version p = "3.0" -> DidWin p = DidWin q).
Proof.
  intros (Hc & Ha & Hs & Hf) (Hc' & Ha' & Hs' & Hf') Hp Hq Hip Hiq Hjoin.
  pose proof (Postback_items_lead_free _ _ Hp Hip) as Hlp.
  pose proof (Postback_items_lead_free _ _ Hq Hiq) as Hlq.
  rewrite Postback_toItems_split in Hip, Hiq.
  destruct (Redownload p) as [rp|]; [|done].
  destruct (Redownload q) as [rq|]; [|done].
  destruct (Postback_ext_items p) as [ep|] eqn:Hep; [|done].
  destruct (Postback_ext_items q) as [eq|] eqn:Heq; [|done].
  injection Hip as <-. injection Hiq as <-.
  apply Join_injective in Hjoin; [|done|done|done|done].
  unfold Postback_lead_items, Go.Itoa in Hjoin.
  injection Hjoin as Hv Hn Hcamp Happ Htx Hrd Htail.
  apply FormatInt_inj in Hcamp, Happ; [|done..].
  apply FormatBool_inj in Hrd. subst rq.
  unfold Postback_ext_items, FidelityType_String in Hep, Heq.
  rewrite <- Hv in Heq. unfold Postback_src_items in Htail.
  assert (Hrest :
            SourceAppID p = SourceAppID q
            /\ (Version p = "2.2" \/ Version p = "3.0" ->
                PFidelityType p = PFidelityType q)
            /\ (Version p = "3.0" -> DidWin p = DidWin q)).
  { destruct (String.eqb_spec (Version p) "2.2") as [E2|E2];
      [|destruct (String.eqb_spec (Version p) "3.0") as [E3|E3]];
      destruct (SourceAppID p) as [a|] eqn:Esp,
        (SourceAppID q) as [a'|] eqn:Esq,
        (PFidelityType p) as [f|] eqn:Efp,
        (PFidelityType q) as [f'|] eqn:Efq,
        (DidWin p) as [w|] eqn:Ewp, (DidWin q) as [w'|] eqn:Ewq;
      try discriminate Hep; try discriminate Heq;
      injection Hep as <-; injection Heq as <-;
      cbn [app] in Htail; try discriminate Htail;
      repeat first [ injection Htail as Hhd Htail; revert Hhd
                   | injection Htail as Htail; revert Htail ];
      intros;
      repeat match goal with
             | H : Go.FormatInt _ = Go.FormatInt _ |- _ =>
                 apply FormatInt_inj in H; [|by eauto..]
             | H : Go.FormatBool _ = Go.FormatBool _ |- _ =>
                 apply FormatBool_inj in H
             end;
      subst; split_and!; intros; try done; try congruence;
      try (destruct_or!; congruence). }
  destruct Hrest as (? & ? & ?). split_and!; congruence || done.
Qed.

End SignedFields.

Lemma v2_2_in_range : Postback_in_range Examples.v2_2.
Proof.
  unfold Postback_in_range, Go.in_int64, Go.int64_min, Go.int64_max.
  split_and!;
    try (intros ? Heq; vm_compute in Heq; injection Heq as <-);
    vm_compute; repeat split; discriminate.
Qed.

Lemma Postback_message_determines_fields_witness :
  Postback_in_range Examples.v2_2
  /\ Postback_text_clean Examples.v2_2
  /\ Rev2.Postback_toItems Examples.v2_2
     = Ret [ "2.2"; "com.example"; "42"; "525463029";
             "6aafb7a5-0170-41b5-bbe4-fe71dedf1e28"; "true"; "1234567891";
             "1" ]
  /\ SourceAppID Examples.v2_2
     = SourceAppID (set_ConversionValue None Examples.v2_2).
Proof.
  assert (Hclean : Postback_text_clean Examples.v2_2) by (by split_and!).
  split; [exact v2_2_in_range|]. split; [exact Hclean|].
  split; [reflexivity|].
  destruct (Postback_message_determines_fields Examples.v2_2
              (set_ConversionValue None Examples.v2_2) _ _
              v2_2_in_range v2_2_in_range Hclean Hclean eq_refl eq_refl
              eq_refl) as (_ & _ & _ & _ & _ & _ & Hsrc & _).
  exact Hsrc.
Defined.

Lemma params_2_2_in_range : Params_in_range Examples.params_2_2.
Proof.
  unfold Params_in_range, Go.in_int64, Go.int64_min, Go.int64_max.
  split_and!; vm_compute; repeat split; discriminate.
Qed.

Lemma Params_message_determines_fields_witness :
  Params_in_range Examples.params_2_2
  /\ Params_text_clean Examples.params_2_2
  /\ Rev2.FidelityType Examples.params_2_2
     = Rev2.FidelityType Examples.params_2_2.
Proof.
  assert (Hclean : Params_text_clean Examples.params_2_2) by (by split).
  split; [exact params_2_2_in_range|]. split; [exact Hclean|].
  destruct (Params_message_determines_fields Examples.params_2_2
              Examples.params_2_2 params_2_2_in_range params_2_2_in_range
              Hclean Hclean eq_refl) as (_ & _ & _ & _ & _ & _ & _ & Hfid).
  exact (Hfid (or_introl eq_refl)).
Defined.

(** ** The two revisions side by side *)

Section Revisions.
Context `{P : Platform}.
Import (hints) Rev1.

Lemma Rev1_items_unsupported (p : Postback) :
  ~ supported (Version p) -> Rev1.Postback_items p = None.
Proof.
  intros Hn. destruct (unsupported_cases _ Hn) as (H1 & H2 & H3).
  unfold Rev1.Postback_items. by rewrite H1, H2, H3.
Qed.

Lemma supported_dec (v : string) : supported v \/ ~ supported v.
Proof.
  unfold supported.
  destruct (String.eqb_spec v "2.1"), (String.eqb_spec v "2.2"),
    (String.eqb_spec v "3.0"); tauto.
Qed.

Lemma supported_test (v : string) :
  supported v ->
  String.eqb v "2.1" || String.eqb v "2.2" || String.eqb v "3.0" = true.
Proof. intros [-> | [-> | ->]]; reflexivity. Qed.

Lemma Verify_revisions_agree (p : Postback) : Rev1.Verify p = Rev2.Verify p.
Proof.
  unfold Rev1.Verify, Rev1.Postback_verify, Rev2.Verify, Rev2.Postback_verify.
  destruct (supported_dec (Version p)) as [Hv|Hn].
  - by rewrite Rev1_items_supported, supported_test.
  - rewrite Rev1_items_unsupported by done.
    destruct (unsupported_cases _ Hn) as (-> & -> & ->). done.
Qed.

(** X1.  The rewrite of postback verification between the two revisions
    changed nothing that a caller can see: on every postback, supported
    version or not, fields present or nil, both return the same result or
    both panic. *)
Theorem postback_verification_unchanged (p : Postback) :
  Rev1.Verify p = Rev2.Verify p
  /\ Rev1.Postback_items p
     = if String.eqb (Version p) "2.1" || String.eqb (Version p) "2.2"
          || String.eqb (Version p) "3.0"
       then Some (Rev2.Postback_toItems p) else None.
Proof.
  split; [apply Verify_revisions_agree|].
  destruct (supported_dec (Version p)) as [Hv|Hn].
  - by rewrite Rev1_items_supported, supported_test.
  - rewrite Rev1_items_unsupported by done.
    destruct (unsupported_cases _ Hn) as (-> & -> & ->). done.
Qed.

(** X2.  The parameter types of the first revision canonicalise, sign
    and verify exactly like the tagged struct of the second carrying the
    matching version: [Params2_1] like "2.1" (whatever the fidelity field
    holds), [Params2_2] like "2.2", [Params3_0] like "3.0", and the
    unexported [params2_0] like "2.0". *)
Theorem typed_params_as_tagged (q : Rev1.params2_0) (f : FidelityType)
    (s : Signer) (rnd : entropy) (sig : string) :
  Rev1.toItems q = Rev2.Params_toItems (tagged "2.0" q f)
  /\ Rev1.toItems (Rev1.mkParams2_1 q) = Rev2.Params_toItems (tagged "2.1" q f)
  /\ Rev1.toItems (Rev1.mkParams2_2 (Rev1.mkParams2_1 q) f)
     = Rev2.Params_toItems (tagged "2.2" q f)
  /\ Rev1.toItems (Rev1.mkParams3_0
                     (Rev1.mkParams2_2 (Rev1.mkParams2_1 q) f))
     = Rev2.Params_toItems (tagged "3.0" q f)
  /\ Rev1.Signer_Sign s rnd (Rev1.mkParams2_1 q)
     = Rev2.Signer_Sign s rnd (tagged "2.1" q f)
  /\ Rev1.Signer_Sign s rnd (Rev1.mkParams2_2 (Rev1.mkParams2_1 q) f)
     = Rev2.Signer_Sign s rnd (tagged "2.2" q f)
  /\ Rev1.Signer_Sign s rnd
       (Rev1.mkParams3_0 (Rev1.mkParams2_2 (Rev1.mkParams2_1 q) f))
     = Rev2.Signer_Sign s rnd (tagged "3.0" q f)
  /\ Rev1.Signer_Verify s (Rev1.mkParams2_1 q) sig
     = Rev2.Signer_Verify s (tagged "2.1" q f) sig
  /\ Rev1.Signer_Verify s (Rev1.mkParams2_2 (Rev1.mkParams2_1 q) f) sig
     = Rev2.Signer_Verify s (tagged "2.2" q f) sig
  /\ Rev1.Signer_Verify s
       (Rev1.mkParams3_0 (Rev1.mkParams2_2 (Rev1.mkParams2_1 q) f)) sig
     = Rev2.Signer_Verify s (tagged "3.0" q f) sig.
Proof. split_and!; reflexivity. Qed.

End Revisions.

(** ** What [Verify] answers, and when it does not *)

Section VerifyAnswers.
Context `{P : Platform}.

Lemma Postback_toItems_panics (p : Postback) :
  Rev2.Postback_toItems p = Panic <->
  Redownload p = None
  \/ ((Version p = "2.2" \/ Version p = "3.0") /\ PFidelityType p = None)
  \/ (Version p = "3.0" /\ DidWin p = None).
Proof.
  rewrite Postback_toItems_split. unfold Postback_ext_items.
  destruct (Redownload p) as [rd|]; [|by split; auto].
  destruct (String.eqb_spec (Version p) "2.2") as [E2|E2];
    [|destruct (String.eqb_spec (Version p) "3.0") as [E3|E3]];
    destruct (PFidelityType p) as [f|], (DidWin p) as [w|];
    split; intros H; try done; auto 6;
    destruct H as [H | [[[H | H] H'] | [H H']]]; congruence.
Qed.

(** X3.  [Verify] panics in exactly these cases, all of them on a
    supported version: the redownload flag is nil; the version is 2.2 or
    3.0 and the fidelity type is nil; the version is 3.0 and the win flag
    is nil; or the signature decodes and the package key [pubV3] is nil.
    In every other case it returns.  Both revisions. *)
Theorem Verify_panics_exactly (p : Postback) :
  (Rev2.Verify p = Panic <->
   supported (Version p)
   /\ (Redownload p = None
       \/ ((Version p = "2.2" \/ Version p = "3.0")
           /\ PFidelityType p = None)
       \/ (Version p = "3.0" /\ DidWin p = None)
       \/ (pubV3 = None
           /\ exists der,
                base64_DecodeString (AttributionSignature p) = inr der)))
  /\ Rev1.Verify p = Rev2.Verify p.
Proof.
  split; [|apply Verify_revisions_agree].
  unfold Rev2.Verify, Rev2.Postback_verify.
  destruct (supported_dec (Version p)) as [Hv|Hn].
  - rewrite supported_test by done.
    pose proof (Postback_toItems_panics p) as Hitems.
    destruct (Rev2.Postback_toItems p) as [items|]; simpl.
    + unfold verify.
      destruct (base64_DecodeString (AttributionSignature p)) as [e|der];
        [|destruct pubV3 as [k|]]; simpl; split; try done.
      * intros (_ & [H | [H | [H | (_ & der & H)]]]); try discriminate H;
          exfalso; assert (@Ret (list string) items = Panic) as Habs
            by (apply Hitems; tauto); discriminate Habs.
      * intros (_ & [H | [H | [H | (H & _)]]]); try discriminate H;
          exfalso; assert (@Ret (list string) items = Panic) as Habs
            by (apply Hitems; tauto); discriminate Habs.
      * intros _. split; [done|]. right; right; right. eauto.
    + split; [|done]. intros _. split; [done|].
      destruct (proj1 Hitems eq_refl) as [H | [H | H]]; tauto.
  - destruct (unsupported_cases _ Hn) as (-> & -> & ->). simpl.
    split; [done|]. by intros [Hv _].
Qed.

(** X4.  [Verify] answers true only without an error, and exactly when
    the version is supported, the items are produced, the attribution
    signature decodes, the package key is there and ECDSA accepts the
    decoded signature for the SHA-256 digest of the items joined by the
    separator.  Whenever it returns an error the answer is false, and the
    error is the unsupported-version error or the signature-decode
    error. *)
Theorem Verify_true_exactly (p : Postback) :
  (Rev2.Verify p = Ret (true, None) <->
   supported (Version p)
   /\ exists items der k,
        Rev2.Postback_toItems p = Ret items
        /\ base64_DecodeString (AttributionSignature p) = inr der
        /\ pubV3 = Some k
        /\ ecdsa_VerifyASN1 k (hash (Go.Join items separator)) der = true)
  /\ (forall ok e,
         Rev2.Verify p = Ret (ok, Some e) ->
         ok = false
         /\ (e = ErrUnsupportedVersion (Version p)
             \/ e = ErrSignatureDecode (AttributionSignature p))).
Proof.
  unfold Rev2.Verify, Rev2.Postback_verify.
  destruct (supported_dec (Version p)) as [Hv|Hn].
  - rewrite supported_test by done.
    destruct (Rev2.Postback_toItems p) as [items|]; simpl.
    + unfold verify.
      destruct (base64_DecodeString (AttributionSignature p)) as [e|der];
        [|destruct pubV3 as [k|]]; simpl.
      * split; [split; [done|]|].
        -- by intros (_ & ? & ? & ? & _ & ? & _).
        -- intros ok e' [= <- <-]. auto.
      * split; [split|done].
        -- intros [= Hok]. split; [done|]. by exists items, der, k.
        -- intros (_ & items' & der' & k' & [= <-] & [= <-] & [= <-] & ->).
           done.
      * split; [split; [done|]|done].
        by intros (_ & ? & ? & ? & _ & _ & ? & _).
    + split; [split; [done|]|done].
      by intros (_ & ? & ? & ? & ? & _).
  - destruct (unsupported_cases _ Hn) as (-> & -> & ->). simpl.
    split; [split; [done|by intros [Hv _]]|].
    intros ok e [= <- <-]. auto.
Qed.

(** X8.  An error from an exported function never comes with a usable
    value, and always carries the package prefix: [NewSigner] returns no
    signer, [Sign] the empty signature, [Verify] false, and the message
    starts with "skadnetwork: ", also where the wrapped cause is the
    loader's misspelt "skadnetowrk" message.  A signer that is returned
    has a key. *)
Theorem errors_come_alone :
  (forall pem s e,
      Rev2.NewSigner pem = (s, Some e) ->
      s = None /\ String.prefix "skadnetwork: " (Error e) = true)
  /\ (forall pem s,
         Rev2.NewSigner pem = (Some s, None) -> key s <> None)
  /\ (forall pem s e,
         Rev1.NewSigner pem = Ret (s, Some e) ->
         s = None /\ String.prefix "skadnetwork: " (Error e) = true)
  /\ (forall pem s,
         Rev1.NewSigner pem = Ret (Some s, None) -> key s <> None)
  /\ (forall (s : Signer) rnd (p : Rev2.Params) sig e,
         Rev2.Signer_Sign s rnd p = Ret (sig, Some e) ->
         sig = "" /\ String.prefix "skadnetwork: " (Error e) = true)
  /\ (forall (s : Signer) (p : Rev2.Params) sig ok e,
         Rev2.Signer_Verify s p sig = Ret (ok, Some e) ->
         ok = false /\ String.prefix "skadnetwork: " (Error e) = true)
  /\ (forall (p : Postback) ok e,
         Rev2.Verify p = Ret (ok, Some e) ->
         ok = false /\ String.prefix "skadnetwork: " (Error e) = true).
Proof.
  split_and!.
  - intros pem s e. unfold Rev2.NewSigner.
    destruct (Rev2.decodePEM pem) as [k [e'|]]; by intros [= <- <-].
  - intros pem s. unfold Rev2.NewSigner.
    destruct (Rev2_decodePEM_cases pem)
      as [(block & k & _ & _ & _ & ->) | (e & -> & _)]; [|done].
    by intros [= <-].
  - intros pem s e. unfold Rev1.NewSigner.
    destruct (Rev1.decodePEM pem) as [[k [e'|]]|]; simpl;
      by intros [= <- <-].
  - intros pem s. unfold Rev1.NewSigner, Rev1.decodePEM.
    destruct (Rev1.decodeBlocks 2 _) as [[blocks rest]|]; [|done].
    destruct (negb _); [done|].
    destruct (Rev1.parseBlocks blocks (None, None))
      as [[e|[[k|] [pub|]]]|]; simpl; try done.
    by intros [= <-].
  - intros s rnd p sig e. unfold Rev2.Signer_Sign, Signer_sign.
    destruct (key s); [|done]. simpl.
    destruct (ecdsa_SignASN1 _ _ _); by intros [= <- <-].
  - intros s p sig ok e. unfold Rev2.Signer_Verify, verify.
    destruct (key s); [|done]. simpl.
    destruct (base64_DecodeString sig); by intros [= <- <-].
  - intros p ok e. unfold Rev2.Verify, Rev2.Postback_verify.
    destruct (_ || _); [|by intros [= <- <-]].
    destruct (Rev2.Postback_toItems p); [|done]. simpl. unfold verify.
    destruct (base64_DecodeString _); [by intros [= <- <-]|].
    by destruct pubV3.
Qed.

(** X9.  As long as [pem.Decode] finds no block in empty input, no key
    file is accepted by both loaders: what the second revision loads the
    first refuses, and the other way round. *)
Theorem loaders_accept_disjoint_inputs (data : string) :
  pem_Decode [] = (None, []) ->
  ~ ((exists k, Rev1.decodePEM data = Ret (Some k, None))
     /\ (exists k, Rev2.decodePEM data = (Some k, None))).
Proof.
  intros Hempty [[k1 H1] [k2 H2]].
  destruct (Rev2_decodePEM_cases data)
    as [(block & k & Hd & _ & _ & _) | (e & He & _)];
    [|rewrite He in H2; discriminate H2].
  unfold Rev1.decodePEM in H1.
  destruct (Rev1.decodeBlocks 2 _) as [[blocks rest]|] eqn:Hdb; [|done].
  apply decodeBlocks_2 in Hdb as (b1 & b2 & r1 & Hd1 & Hd2 & _).
  rewrite Hd in Hd1. injection Hd1 as _ <-.
  rewrite Hempty in Hd2. discriminate Hd2.
Qed.

(** X10.  A signer of the first revision verifies against the public key
    of the key file's public-key block.  When that key is the one the
    private scalar determines, a signature it produced for some
    parameters verifies for the same parameters; [Sign] itself never
    panics. *)
Theorem Rev1_round_trip `{!PlatformLaws P} {T : Type} `{!Rev1.Params T}
    (pem : string) (s : Signer) (p : T) (rnd : entropy) :
  Rev1.NewSigner pem = Ret (Some s, None) ->
  (exists k, key s = Some k)
  /\ (exists r, Rev1.Signer_Sign s rnd p = Ret r)
  /\ (forall k sig,
         key s = Some k ->
         PublicKey k = derive (D k) ->
         Rev1.Signer_Sign s rnd p = Ret (sig, None) ->
         Rev1.Signer_Verify s p sig = Ret (true, None)).
Proof.
  intros Hnew.
  assert (Hkey : exists k, key s = Some k).
  { revert Hnew. unfold Rev1.NewSigner, Rev1.decodePEM.
    destruct (Rev1.decodeBlocks 2 _) as [[blocks rest]|]; [|done].
    destruct (negb _); [done|].
    destruct (Rev1.parseBlocks blocks (None, None))
      as [[e|[[k|] [pub|]]]|]; simpl; try done.
    intros [= <-]. by eexists. }
  destruct Hkey as [k Hk]. split; [by eexists|].
  unfold Rev1.Signer_Sign, Rev1.Signer_Verify, Signer_sign, verify.
  rewrite Hk. simpl.
  destruct (ecdsa_SignASN1 rnd k _) as [err|der] eqn:Hder;
    (split; [by eexists|]); intros k' sig [= <-] Hpub Hsign;
    [discriminate Hsign|].
  injection Hsign as <-. rewrite base64_round_trip. simpl.
  destruct k as [pub d]. simpl in *. subst pub.
  by rewrite (ecdsa_complete _ _ _ _ Hder).
Qed.

End VerifyAnswers.

Lemma Verify_panics_exactly_witness :
  supported (Version Examples.v2_2_no_redownload)
  /\ @Rev2.Verify Toy.platform Examples.v2_2_no_redownload = Panic.
Proof.
  assert (Hv : supported (Version Examples.v2_2_no_redownload))
    by (right; left; reflexivity).
  split; [exact Hv|].
  apply (proj1 (@Verify_panics_exactly Toy.platform
                  Examples.v2_2_no_redownload)).
  split; [exact Hv|]. left. reflexivity.
Defined.

Lemma Verify_true_exactly_witness :
  supported (Version Examples.v2_2_toy_signed)
  /\ @Rev2.Verify Toy.platform Examples.v2_2_toy_signed = Ret (true, None).
Proof.
  assert (Hv : supported (Version Examples.v2_2_toy_signed))
    by (right; left; reflexivity).
  split; [exact Hv|].
  apply (proj1 (@Verify_true_exactly Toy.platform Examples.v2_2_toy_signed)).
  split; [exact Hv|].
  eexists _, _, 5000. split; [reflexivity|].
  split; [reflexivity|]. split; [reflexivity|]. vm_compute. reflexivity.
Defined.

Lemma errors_come_alone_witness :
  @Rev2.NewSigner Toy.platform "K42;P1042;"
  = (None, Some (ErrPemDataDecode ErrOnly2Blocks))
  /\ String.prefix "skadnetwork: "
       (Error (ErrPemDataDecode ErrOnly2Blocks)) = true.
Proof.
  split; [reflexivity|].
  exact (proj2 (proj1 (@errors_come_alone Toy.platform)
                  "K42;P1042;" None _ eq_refl)).
Defined.

Lemma loaders_accept_disjoint_inputs_witness :
  @pem_Decode Toy.platform [] = (None, [])
  /\ ~ ((exists k, @Rev1.decodePEM Toy.platform "K42;" = Ret (Some k, None))
        /\ (exists k, @Rev2.decodePEM Toy.platform "K42;" = (Some k, None))).
Proof.
  split; [reflexivity|].
  exact (@loaders_accept_disjoint_inputs Toy.platform "K42;" eq_refl).
Defined.

Lemma Rev1_round_trip_witness :
  @Rev1.NewSigner Toy.platform "K42;P1042;"
  = Ret (Some Examples.toy_signer, None)
  /\ exists sig,
       @Rev1.Signer_Sign Toy.platform _ Rev1.Params2_1_toItems
         Examples.toy_signer 7
         (Rev1.mkParams2_1
            (Rev1.mkParams2_0 "example123.skadnetwork" 42 525463029
               Examples.nonce 1234567891 Examples.timestamp))
       = Ret (sig, None)
       /\ @Rev1.Signer_Verify Toy.platform _ Rev1.Params2_1_toItems
            Examples.toy_signer
            (Rev1.mkParams2_1
               (Rev1.mkParams2_0 "example123.skadnetwork" 42 525463029
                  Examples.nonce 1234567891 Examples.timestamp)) sig
          = Ret (true, None).
Proof.
  assert (Hnew : @Rev1.NewSigner Toy.platform "K42;P1042;"
                 = Ret (Some Examples.toy_signer, None)) by reflexivity.
  split; [exact Hnew|].
  eexists. split; [vm_compute; reflexivity|].
  destruct (@Rev1_round_trip Toy.platform Toy_laws _ Rev1.Params2_1_toItems
              "K42;P1042;" Examples.toy_signer
              (Rev1.mkParams2_1
                 (Rev1.mkParams2_0 "example123.skadnetwork" 42 525463029
                    Examples.nonce 1234567891 Examples.timestamp)) 7 Hnew)
    as (_ & _ & Hrt).
  exact (Hrt _ _ eq_refl eq_refl eq_refl).
Defined.

(** ** Parsing public keys *)

Section PublicKeys.
Context `{P : Platform}.

(** X11.  Parsing Apple's public-key text is the same in both revisions.
    It returns a key exactly when the text is base64 of an ECDSA public
    key, then without error; it returns an error without a key when the
    text is not base64 or the bytes are no public key; and it panics
    exactly when the bytes are a public key of another algorithm. *)
Theorem public_key_parsing (s : string) :
  Rev1.parseECDSAPublicKeyBlock s = Rev2.parseECDSAPublicKey s
  /\ Rev1.pubV3_init = Rev2.pubV3_init
  /\ (forall k,
         Rev2.parseECDSAPublicKey s = Ret (Some k, None) <->
         exists der, base64_DecodeString s = inr der
                     /\ x509_ParsePKIXPublicKey der = inr (ECDSAPublicKey k))
  /\ (Rev2.parseECDSAPublicKey s = Panic <->
      exists der, base64_DecodeString s = inr der
                  /\ x509_ParsePKIXPublicKey der = inr OtherPublicKey)
  /\ (forall k e,
         Rev2.parseECDSAPublicKey s = Ret (k, e) ->
         (k = None /\ exists e', e = Some e' /\ kind_of e' = Some FormatError)
         \/ (e = None /\ exists k', k = Some k')).
Proof.
  assert (Hsame : forall t,
             Rev1.parseECDSAPublicKeyBlock t = Rev2.parseECDSAPublicKey t).
  { intros t. unfold Rev1.parseECDSAPublicKeyBlock,
      Rev1.parseECDSAPublicKey, Rev2.parseECDSAPublicKey.
    by destruct (base64_DecodeString t). }
  split; [apply Hsame|].
  split; [unfold Rev1.pubV3_init, Rev2.pubV3_init; by rewrite Hsame|].
  unfold Rev2.parseECDSAPublicKey.
  destruct (base64_DecodeString s) as [e|der].
  - split_and!.
    + intros k. split; [done|]. by intros (? & ? & _).
    + split; [done|]. by intros (? & ? & _).
    + intros k e' [= <- <-]. left. split; [done|]. by eexists.
  - destruct (x509_ParsePKIXPublicKey der) as [e|[k|]] eqn:Hparse.
    + split_and!.
      * intros k. split; [done|]. intros (? & [= <-] & H). congruence.
      * split; [done|]. intros (? & [= <-] & H). congruence.
      * intros k e' [= <- <-]. left. split; [done|]. by eexists.
    + split_and!.
      * intros k'. split.
        -- intros [= <-]. by exists der.
        -- intros (? & [= <-] & H). congruence.
      * split; [done|]. intros (? & [= <-] & H). congruence.
      * intros k' e' [= <- <-]. right. split; [done|]. by eexists.
    + split_and!.
      * intros k. split; [done|]. intros (? & [= <-] & H). congruence.
      * split; [|done]. intros _. by exists der.
      * done.
Qed.

Ltac split_block b :=
  destruct (String.eqb_spec (Type_ b) "EC PRIVATE KEY");
  [ destruct (x509_ParseECPrivateKey (Bytes b)) eqn:?
  | destruct (String.eqb_spec (Type_ b) "PUBLIC KEY");
    [ destruct (x509_ParsePKIXPublicKey (Bytes b)) as [?|[?|]] eqn:? | ] ].

(** X12.  The loader of the first revision panics in exactly one
    situation: two blocks with nothing after them, and a public-key block
    whose bytes hold a key of another algorithm, either as the first block
    or as the second after a first block that parsed.  [NewSigner] panics
    exactly when the loader does. *)
Theorem Rev1_loader_panics_exactly (data : string) :
  (Rev1.decodePEM data = Panic <->
   exists b1 b2,
     Rev1.decodeBlocks 2 (list_byte_of_string data) = Some ([b1; b2], [])
     /\ (foreign_key_block b1
         \/ (((exists k, private_block b1 k)
              \/ (exists pub, public_block b1 pub))
             /\ foreign_key_block b2)))
  /\ (Rev1.NewSigner data = Panic <-> Rev1.decodePEM data = Panic).
Proof.
  split.
  - unfold Rev1.decodePEM.
    destruct (Rev1.decodeBlocks 2 _) as [[blocks rest]|] eqn:Hdb;
      [|split; [done|by intros (? & ? & ? & _)]].
    destruct (decodeBlocks_2 _ _ _ Hdb) as (b1 & b2 & r1 & _ & _ & ->).
    destruct rest as [|c rest]; simpl;
      [|split; [done|by intros (? & ? & ? & _)]].
    unfold Rev1.parseBlock, Rev1.parseECDSAPublicKey,
      foreign_key_block, private_block, public_block.
    split_block b1; simpl; try split_block b2; simpl;
      (split;
       [ intros Hp;
         first [ discriminate Hp
               | exists b1, b2; split; [reflexivity|]; eauto 8 ]
       | intros (b1' & b2' & [= <- <-] & Hcase);
         first [ reflexivity
               | exfalso;
                 destruct Hcase as [[? ?] | [[[? [? ?]] | [? [? ?]]] [? ?]]];
                 congruence ] ]).
  - unfold Rev1.NewSigner.
    destruct (Rev1.decodePEM data) as [[k [e|]]|]; simpl; split; done.
Qed.

End PublicKeys.

Lemma Rev1_loader_panics_exactly_witness :
  @Rev1.decodeBlocks Toy.platform 2 (list_byte_of_string "K42;Prsa;")
  = Some ([ mkBlock "EC PRIVATE KEY" (list_byte_of_string "42");
            mkBlock "PUBLIC KEY" (list_byte_of_string "rsa") ], [])
  /\ @Rev1.decodePEM Toy.platform "K42;Prsa;" = Panic.
Proof.
  split; [reflexivity|].
  apply (proj1 (@Rev1_loader_panics_exactly Toy.platform "K42;Prsa;")).
  eexists _, _. split; [reflexivity|].
  right. split; [|split; reflexivity].
  left. exists (mkPrivateKey 1042 42). split; reflexivity.
Defined.

Lemma public_key_parsing_witness :
  @base64_DecodeString Toy.platform "b64:1042" = inr (list_byte_of_string "1042")
  /\ @Rev2.parseECDSAPublicKey Toy.platform "b64:1042" = Ret (Some 1042, None).
Proof.
  split; [reflexivity|].
  apply (proj1 (proj2 (proj2 (@public_key_parsing Toy.platform "b64:1042")))).
  exists (list_byte_of_string "1042"). split; reflexivity.
Defined.
